(** * pgehourly: fetching and normalising day-ahead prices (utils.py)

    A shallow embedding of [fetch_energy_data] and [process_pricing_data]
    and of the Python library functions they call, followed by the
    properties of the two functions.

    Conventions of the model:
    - a Python [str] is a Rocq [string]; a character is a code point below
      256 (Latin-1), where the regular-expression class [\d] is exactly
      the ten ASCII digits;
    - a decoded JSON document is a [pyval]; a [dict] is an association list
      in insertion order, looked up by its first matching key;
    - a Python [float] is an IEEE 754 binary64 value ([spec_float] with
      precision 53 and maximal exponent 1024);
    - a raised exception is a class and the text [str(e)] gives;
    - standard output is a list of [diag] events, one per [print]
      statement, carrying the values the statement interpolates;
    - library behaviour follows CPython 3.11 and requests 2.27 or later. *)

From Stdlib Require Import ZArith List String Ascii Bool Lia.
From Stdlib Require Import Permutation Sorted Sorting.Mergesort Orders.
From Stdlib Require Import SpecFloat DecimalString Decimal.
Import ListNotations.

Set Warnings "-register-all".
Local Open Scope string_scope.

(* ================================================================== *)
(** ** Python values *)

Module Py.

(** The values [json] decoding produces. *)
Inductive pyval : Type :=
| PNone
| PBool (b : bool)
| PInt (z : Z)
| PFloat (f : spec_float)
| PStr (s : string)
| PList (l : list pyval)
| PDict (d : list (string * pyval)).

(** Exception classes met in [utils.py] and in the library calls it makes.
    [ConnectionError], [Timeout], [TooManyRedirects], [HTTPError] and
    [JSONDecodeError] are those of [requests.exceptions];
    [json_JSONDecodeError] is [json.JSONDecodeError], which [json.loads]
    raises and which is a subclass of [ValueError], as is the
    [JSONDecodeError] of [requests.exceptions]. *)
Inductive exn_class : Type :=
| Exception
| ValueError
| TypeError
| OverflowError
| RecursionError
| json_JSONDecodeError
| RequestException
| ConnectionError
| Timeout
| TooManyRedirects
| HTTPError
| JSONDecodeError.

Record exn : Type := Raise { exn_cls : exn_class; exn_msg : string }.

(** [str(e)] *)
Definition str_exn (e : exn) : string := exn_msg e.

(** [isinstance(e, (ValueError, TypeError))] *)
Definition is_ValueError_or_TypeError (e : exn) : bool :=
  match exn_cls e with
  | ValueError | TypeError | json_JSONDecodeError | JSONDecodeError => true
  | _ => false
  end.

(** [isinstance(e, requests.exceptions.RequestException)] *)
Definition is_RequestException (e : exn) : bool :=
  match exn_cls e with
  | RequestException | ConnectionError | Timeout | TooManyRedirects
  | HTTPError | JSONDecodeError => true
  | _ => false
  end.

(** [type(v).__name__] *)
Definition type_name (v : pyval) : string :=
  match v with
  | PNone => "NoneType"
  | PBool _ => "bool"
  | PInt _ => "int"
  | PFloat _ => "float"
  | PStr _ => "str"
  | PList _ => "list"
  | PDict _ => "dict"
  end.

(** [isinstance(v, dict)] *)
Definition is_dict (v : pyval) : bool :=
  match v with PDict _ => true | _ => false end.

(** [v is None] *)
Definition is_None (v : pyval) : bool :=
  match v with PNone => true | _ => false end.

(** Truth value of a float: zeros of either sign are false, NaN is true. *)
Definition float_is_zero (f : spec_float) : bool :=
  match f with S754_zero _ => true | _ => false end.

(** [bool(v)] *)
Definition truthy (v : pyval) : bool :=
  match v with
  | PNone => false
  | PBool b => b
  | PInt z => negb (z =? 0)%Z
  | PFloat f => negb (float_is_zero f)
  | PStr s => negb (String.eqb s "")
  | PList l => match l with [] => false | _ => true end
  | PDict d => match d with [] => false | _ => true end
  end.

(** [d.get(key)]: [None] stands for an absent key. *)
Fixpoint dict_lookup (d : list (string * pyval)) (key : string)
  : option pyval :=
  match d with
  | [] => None
  | (k, v) :: d' => if String.eqb k key then Some v else dict_lookup d' key
  end.

(** [d.get(key, default)] *)
Definition dict_get (d : list (string * pyval)) (key : string)
  (default : pyval) : pyval :=
  match dict_lookup d key with
  | Some v => v
  | None => default
  end.

(** [list(d.keys())] *)
Definition dict_keys (d : list (string * pyval)) : list string :=
  map fst d.

(** The characters of a string, each as a string of length one. *)
Fixpoint str_chars (s : string) : list pyval :=
  match s with
  | EmptyString => []
  | String c s' => PStr (String c EmptyString) :: str_chars s'
  end.

(** The items a [for] loop over [v] visits, or the [TypeError] of a value
    that is not iterable. *)
Definition py_iter (v : pyval) : exn + list pyval :=
  match v with
  | PList l => inr l
  | PStr s => inr (str_chars s)
  | PDict d => inr (map (fun kv => PStr (fst kv)) d)
  | _ => inl (Raise TypeError
                ("'" ++ type_name v ++ "' object is not iterable"))
  end.

(** [str(n)] for a natural number. *)
Definition str_nat (n : nat) : string :=
  NilEmpty.string_of_uint (Nat.to_uint n).

(** [str(z)] for an integer. *)
Definition str_int (z : Z) : string :=
  NilEmpty.string_of_int (Z.to_int z).

End Py.
Export Py.

(* ================================================================== *)
(** ** Characters *)

Module Chars.

Definition code (c : ascii) : nat := nat_of_ascii c.

Definition in_range (lo hi c : ascii) : bool :=
  (code lo <=? code c)%nat && (code c <=? code hi)%nat.

Definition is_digit (c : ascii) : bool := in_range "0" "9" c.

Definition is_char (x c : ascii) : bool := Ascii.eqb x c.

(** [[+-]] *)
Definition is_sign (c : ascii) : bool := is_char "+" c || is_char "-" c.

(** Value of a decimal digit. *)
Definition digit_val (c : ascii) : nat := code c - code "0".

(** Characters equal up to ASCII case, as under [re.IGNORECASE]. *)
Definition lower (c : ascii) : ascii :=
  if in_range "A" "Z" c then ascii_of_nat (code c + 32) else c.

Definition eqb_nocase (x c : ascii) : bool := Ascii.eqb (lower x) (lower c).

End Chars.
Export Chars.

(* ================================================================== *)
(** ** [repr] of a string *)

Module Repr.

Definition quote1 : ascii := "'".
Definition quote2 : ascii := ascii_of_nat 34.
Definition backslash : ascii := "\".

Fixpoint contains_char (x : ascii) (s : string) : bool :=
  match s with
  | EmptyString => false
  | String c s' => is_char x c || contains_char x s'
  end.

Definition hex_digit (n : nat) : ascii :=
  if (n <? 10)%nat then ascii_of_nat (code "0" + n)
  else ascii_of_nat (code "a" + (n - 10)).

(** [str.isprintable] on Latin-1. *)
Definition printable (c : ascii) : bool :=
  ((32 <=? code c) && (code c <=? 126))%nat
  || ((161 <=? code c) && negb (code c =? 173))%nat.

Definition repr_char (q c : ascii) : string :=
  if is_char q c || is_char backslash c then String backslash (String c "")
  else if (code c =? 9)%nat then "\t"
  else if (code c =? 10)%nat then "\n"
  else if (code c =? 13)%nat then "\r"
  else if printable c then String c ""
  else String backslash
         (String "x" (String (hex_digit (code c / 16))
                        (String (hex_digit (code c mod 16)) ""))).

Fixpoint repr_body (q : ascii) (s : string) : string :=
  match s with
  | EmptyString => ""
  | String c s' => repr_char q c ++ repr_body q s'
  end.

(** [repr(s)]: double quotes only when the string holds a single quote and
    no double quote. *)
Definition repr_str (s : string) : string :=
  let q := if contains_char quote1 s && negb (contains_char quote2 s)
           then quote2 else quote1 in
  String q (repr_body q s ++ String q "").

End Repr.

(* ================================================================== *)
(** ** The two substitutions of the timestamp cleanup *)

Module Re.

(** Where [$] matches without [re.MULTILINE]: at the end of the string and
    just before a newline that ends it. *)
Definition at_dollar (s : string) : bool :=
  match s with
  | EmptyString => true
  | String c EmptyString => (code c =? 10)%nat
  | _ => false
  end.

(** A match of [[+-]\d{4}$] at the start of [s]; the text after it. *)
Definition match_offset (s : string) : option string :=
  match s with
  | String c0 (String c1 (String c2 (String c3 (String c4 rest)))) =>
      if is_sign c0 && is_digit c1 && is_digit c2 && is_digit c3
         && is_digit c4 && at_dollar rest
      then Some rest else None
  | _ => None
  end.

(** [re.sub(r'[+-]\d{4}$', '', s)]. After a match at most one newline is
    left, which no further match can start in. *)
Fixpoint sub_offset (s : string) : string :=
  match s with
  | EmptyString => EmptyString
  | String c s' =>
      match match_offset s with
      | Some rest => rest
      | None => String c (sub_offset s')
      end
  end.

Definition starts_with_digit (s : string) : bool :=
  match s with
  | String c _ => is_digit c
  | EmptyString => false
  end.

(** [re.sub(r'\.\d+', '', s)], scanning left to right; [in_match] holds
    while the digits of a match are being consumed. *)
Fixpoint sub_fraction_from (in_match : bool) (s : string) : string :=
  match s with
  | EmptyString => EmptyString
  | String c s' =>
      if in_match && is_digit c then sub_fraction_from true s'
      else if is_char "." c && starts_with_digit s'
           then sub_fraction_from true s'
           else String c (sub_fraction_from false s')
  end.

Definition sub_fraction (s : string) : string := sub_fraction_from false s.

End Re.

(* ================================================================== *)
(** ** [datetime.strptime(s, '%Y-%m-%dT%H:%M:%S')] *)

Module Strptime.

(** A naive [datetime] with no microseconds. *)
Record datetime : Type := mk_datetime
  { year : nat; month : nat; day : nat;
    hour : nat; minute : nat; second : nat }.

(** The candidates of one group of the regular expression: the value read
    and the text left, in the order the alternatives are tried. *)
Definition cands : Type := list (nat * string).

Definition two (p q : ascii -> bool) (s : string) : cands :=
  match s with
  | String a (String b r) =>
      if p a && q b then [(10 * digit_val a + digit_val b, r)] else []
  | _ => []
  end.

Definition one (p : ascii -> bool) (s : string) : cands :=
  match s with
  | String a r => if p a then [(digit_val a, r)] else []
  | _ => []
  end.

(** A literal character of the format, compared without case. *)
Definition lit (x : ascii) (s : string) : list string :=
  match s with
  | String a r => if eqb_nocase x a then [r] else []
  | _ => []
  end.

(** [(?P<Y>\d\d\d\d)] *)
Definition re_Y (s : string) : cands :=
  match s with
  | String a (String b (String c (String d r))) =>
      if is_digit a && is_digit b && is_digit c && is_digit d
      then [(1000 * digit_val a + 100 * digit_val b
             + 10 * digit_val c + digit_val d, r)]
      else []
  | _ => []
  end.

(** [(?P<m>1[0-2]|0[1-9]|[1-9])] *)
Definition re_m (s : string) : cands :=
  (two (is_char "1") (in_range "0" "2") s
  ++ two (is_char "0") (in_range "1" "9") s
  ++ one (in_range "1" "9") s)%list.

(** [(?P<d>3[0-1]|[1-2]\d|0[1-9]|[1-9]| [1-9])]; a space reads as a
    leading zero. *)
Definition re_d (s : string) : cands :=
  (two (is_char "3") (in_range "0" "1") s
  ++ two (in_range "1" "2") is_digit s
  ++ two (is_char "0") (in_range "1" "9") s
  ++ one (in_range "1" "9") s
  ++ match s with
     | String a r => if is_char " " a then one (in_range "1" "9") r else []
     | _ => []
     end)%list.

(** [(?P<H>2[0-3]|[0-1]\d|\d)] *)
Definition re_H (s : string) : cands :=
  (two (is_char "2") (in_range "0" "3") s
  ++ two (in_range "0" "1") is_digit s
  ++ one is_digit s)%list.

(** [(?P<M>[0-5]\d|\d)] *)
Definition re_M (s : string) : cands :=
  (two (in_range "0" "5") is_digit s ++ one is_digit s)%list.

(** [(?P<S>6[0-1]|[0-5]\d|\d)] *)
Definition re_S (s : string) : cands :=
  (two (is_char "6") (in_range "0" "1") s
  ++ two (in_range "0" "5") is_digit s
  ++ one is_digit s)%list.

(** All the ways the compiled format matches a prefix of [s], in the order
    a backtracking matcher finds them. *)
Definition format_matches (s : string) : list (datetime * string) :=
  flat_map (fun '(yr, s1) =>
  flat_map (fun s2 =>
  flat_map (fun '(mo, s3) =>
  flat_map (fun s4 =>
  flat_map (fun '(dy, s5) =>
  flat_map (fun s6 =>
  flat_map (fun '(hh, s7) =>
  flat_map (fun s8 =>
  flat_map (fun '(mi, s9) =>
  flat_map (fun s10 =>
  map (fun '(ss, rest) => (mk_datetime yr mo dy hh mi ss, rest)) (re_S s10))
  (lit ":" s9)) (re_M s8)) (lit ":" s7)) (re_H s6)) (lit "T" s5))
  (re_d s4)) (lit "-" s3)) (re_m s2)) (lit "-" s1)) (re_Y s).

Definition is_leap (y : nat) : bool :=
  ((y mod 4 =? 0) && (negb (y mod 100 =? 0) || (y mod 400 =? 0)))%nat.

Definition days_in_month (y m : nat) : nat :=
  match m with
  | 2 => if is_leap y then 29 else 28
  | 4 | 6 | 9 | 11 => 30
  | _ => 31
  end.

Definition format_text : string := "%Y-%m-%dT%H:%M:%S".

(** [datetime.strptime(s, '%Y-%m-%dT%H:%M:%S')]: the first match is taken;
    text left after it, a date the calendar does not have and a second of
    60 or 61 raise [ValueError]. *)
Definition strptime (s : string) : exn + datetime :=
  match format_matches s with
  | [] =>
      inl (Raise ValueError
             ("time data " ++ Repr.repr_str s ++ " does not match format "
              ++ Repr.repr_str format_text))
  | (dt, rest) :: _ =>
      if negb (String.eqb rest "") then
        inl (Raise ValueError ("unconverted data remains: " ++ rest))
      else if (year dt =? 0)%nat then
        inl (Raise ValueError "year 0 is out of range")
      else if (days_in_month (year dt) (month dt) <? day dt)%nat then
        inl (Raise ValueError "day is out of range for month")
      else if (59 <? second dt)%nat then
        inl (Raise ValueError "second must be in 0..59")
      else inr dt
  end.

(** Order of naive datetimes: field by field. *)
Definition datetime_key (dt : datetime) : list nat :=
  [year dt; month dt; day dt; hour dt; minute dt; second dt].

Fixpoint lex_compare (a b : list nat) : comparison :=
  match a, b with
  | [], [] => Eq
  | [], _ :: _ => Lt
  | _ :: _, [] => Gt
  | x :: a', y :: b' =>
      match Nat.compare x y with
      | Eq => lex_compare a' b'
      | c => c
      end
  end.

Definition datetime_compare (a b : datetime) : comparison :=
  lex_compare (datetime_key a) (datetime_key b).

(** [a <= b] *)
Definition datetime_leb (a b : datetime) : bool :=
  match datetime_compare a b with
  | Gt => false
  | _ => true
  end.

End Strptime.
Export Strptime.

(* ================================================================== *)
(** ** [float(x)] *)

Module PyFloat.

Definition prec : Z := 53.
Definition emax : Z := 1024.

Definition float_zero : spec_float := S754_zero false.
Definition float_one : spec_float := binary_normalize prec emax 1 0 false.

Definition is_infinite (f : spec_float) : bool :=
  match f with S754_infinity _ => true | _ => false end.

(** [float(z)] for an [int]: the nearest binary64 value, ties to even;
    [OverflowError] when that is beyond the largest finite one. *)
Definition float_of_int (z : Z) : exn + spec_float :=
  let f := binary_normalize prec emax z 0 false in
  if is_infinite f
  then inl (Raise OverflowError "int too large to convert to float")
  else inr f.

(** The binary64 value nearest to [m * 10 ^ e], for [m >= 0]. *)
Definition float_of_decimal (neg : bool) (m e : Z) : spec_float :=
  match m with
  | Zpos p =>
      if (0 <=? e)%Z
      then binary_round prec emax neg (Z.to_pos (m * 10 ^ e)) 0
      else let '(q, e', loc) :=
             SFdiv_core_binary prec emax m 0 (10 ^ (- e)) 0 in
           binary_round_aux prec emax neg q e' loc
  | _ => S754_zero neg
  end.

(** The characters [float] strips from both ends of its argument. *)
Definition is_space (c : ascii) : bool :=
  ((9 <=? code c) && (code c <=? 13) || (code c =? 32)
   || (code c =? 133) || (code c =? 160))%nat.

Fixpoint lstrip (s : string) : string :=
  match s with
  | String c s' => if is_space c then lstrip s' else s
  | EmptyString => EmptyString
  end.

Fixpoint rstrip (s : string) : string :=
  match s with
  | EmptyString => EmptyString
  | String c s' =>
      match rstrip s' with
      | EmptyString => if is_space c then EmptyString else String c ""
      | r => String c r
      end
  end.

(** Underscores are dropped; one is allowed only between two digits. *)
Fixpoint drop_underscores (prev : ascii) (s : string) : option string :=
  match s with
  | EmptyString => if is_char "_" prev then None else Some EmptyString
  | String c s' =>
      if is_char "_" c then
        if is_digit prev then drop_underscores c s' else None
      else if is_char "_" prev && negb (is_digit c) then None
      else option_map (String c) (drop_underscores c s')
  end.

(** The longest prefix of digits, and what follows it. *)
Fixpoint span_digits (s : string) : string * string :=
  match s with
  | String c s' =>
      if is_digit c
      then let '(ds, r) := span_digits s' in (String c ds, r)
      else (EmptyString, s)
  | EmptyString => (EmptyString, EmptyString)
  end.

Fixpoint Z_of_digits_from (acc : Z) (s : string) : Z :=
  match s with
  | EmptyString => acc
  | String c s' => Z_of_digits_from (10 * acc + Z.of_nat (digit_val c)) s'
  end.

Definition Z_of_digits (s : string) : Z := Z_of_digits_from 0 s.

(** An optional sign: whether it is a minus, and what follows it. *)
Definition take_sign (s : string) : bool * string :=
  match s with
  | String c s' =>
      if is_char "-" c then (true, s')
      else if is_char "+" c then (false, s')
      else (false, s)
  | EmptyString => (false, s)
  end.

Definition is_empty (s : string) : bool :=
  match s with EmptyString => true | _ => false end.

(** [digits [. digits] [(e|E) [sign] digits]] with a digit before the
    exponent: the pair [(m, e)] of the value [m * 10 ^ e]. *)
Definition parse_decimal (s : string) : option (Z * Z) :=
  let '(ip, r1) := span_digits s in
  let '(fp, r2) :=
    match r1 with
    | String c r => if is_char "." c then span_digits r else (EmptyString, r1)
    | EmptyString => (EmptyString, r1)
    end in
  if is_empty ip && is_empty fp then None else
  let m := Z_of_digits (ip ++ fp) in
  let scale := Z.of_nat (String.length fp) in
  match r2 with
  | EmptyString => Some (m, (- scale)%Z)
  | String c r3 =>
      if eqb_nocase "e" c then
        let '(eneg, r4) := take_sign r3 in
        let '(ex, r5) := span_digits r4 in
        if is_empty ex || negb (is_empty r5) then None
        else Some (m, ((if eneg then - Z_of_digits ex else Z_of_digits ex)
                       - scale)%Z)
      else None
  end.

Fixpoint lower_str (s : string) : string :=
  match s with
  | EmptyString => EmptyString
  | String c s' => String (lower c) (lower_str s')
  end.

(** [float(s)] for a [str]; [None] stands for the [ValueError]. *)
Definition float_of_str (s : string) : option spec_float :=
  match drop_underscores Ascii.zero (rstrip (lstrip s)) with
  | None => None
  | Some t =>
      let '(neg, body) := take_sign t in
      let word := lower_str body in
      if String.eqb word "inf" || String.eqb word "infinity"
      then Some (S754_infinity neg)
      else if String.eqb word "nan" then Some S754_nan
      else match parse_decimal body with
           | Some (m, e) => Some (float_of_decimal neg m e)
           | None => None
           end
  end.

(** [float(v)] *)
Definition py_float (v : pyval) : exn + spec_float :=
  match v with
  | PBool b => inr (if b then float_one else float_zero)
  | PInt z => float_of_int z
  | PFloat f => inr f
  | PStr s =>
      match float_of_str s with
      | Some f => inr f
      | None => inl (Raise ValueError
                       ("could not convert string to float: "
                        ++ Repr.repr_str s))
      end
  | _ => inl (Raise TypeError
                ("float() argument must be a string or a real number, not '"
                 ++ type_name v ++ "'"))
  end.

End PyFloat.
Export PyFloat.

(* ================================================================== *)
(** ** Standard output and exceptions as a monad *)

Module Out.

(** One event per [print] statement of [process_pricing_data], with the
    values the statement formats. *)
Inductive diag : Type :=
| WarnNoData (keys : list string)
| WarnSkip (e : exn)
| WarnSkipValues (datetime_str price : pyval)
| ErrProcessing (e : exn)
| DataReceived (data : pyval).

(** A computation that prints and then returns or raises. What was printed
    before an exception stays printed. *)
Definition M (A : Type) : Type := list diag -> (exn + A) * list diag.

Definition ret {A : Type} (a : A) : M A := fun out => (inr a, out).

Definition raise {A : Type} (e : exn) : M A := fun out => (inl e, out).

Definition bind {A B : Type} (c : M A) (k : A -> M B) : M B :=
  fun out =>
    match c out with
    | (inr a, out') => k a out'
    | (inl e, out') => (inl e, out')
    end.

Definition print (d : diag) : M unit := fun out => (inr tt, (out ++ [d])%list).

(** The outcome of a library call that prints nothing. *)
Definition lift {A : Type} (r : exn + A) : M A := fun out => (r, out).

(** [try: c  except <classes> as e: handler e] *)
Definition try_except {A : Type} (c : M A) (catches : exn -> bool)
  (handler : exn -> M A) : M A :=
  fun out =>
    match c out with
    | (inr a, out') => (inr a, out')
    | (inl e, out') => if catches e then handler e out' else (inl e, out')
    end.

End Out.
Export Out.

Declare Scope py_scope.
Delimit Scope py_scope with py.
Notation "x <- c ;; k" := (bind c (fun x => k))
  (at level 61, c at next level, right associativity) : py_scope.
Notation "c ;;; k" := (bind c (fun _ => k))
  (at level 61, right associativity) : py_scope.

(* ================================================================== *)
(** ** The table [pandas] builds *)

Module Pandas.

(** A row of the frame: its index label and the two columns. *)
Record Row : Type := mk_row
  { row_index : nat; row_datetime : datetime; row_price : spec_float }.

(** The order [sort_values] sorts by, as the sorting functor wants it. *)
Module RowOrder <: TotalLeBool.

Definition t : Type := Row.

Definition leb (a b : Row) : bool :=
  datetime_leb (row_datetime a) (row_datetime b).

Lemma lex_compare_antisym (a b : list nat) :
  lex_compare b a = CompOpp (lex_compare a b).
Proof.
  revert b; induction a as [|x a IH]; intros [|y b]; simpl; auto.
  rewrite (Nat.compare_antisym x y).
  destruct (Nat.compare x y); simpl; auto.
Qed.

Theorem leb_total (a1 a2 : Row) : leb a1 a2 = true \/ leb a2 a1 = true.
Proof.
  unfold leb, datetime_leb, datetime_compare.
  rewrite (lex_compare_antisym (datetime_key (row_datetime a1))).
  destruct (lex_compare _ _); simpl; auto.
Qed.

End RowOrder.

Module RowSort := Sort RowOrder.

Fixpoint rows_from (i : nat) (records : list (datetime * spec_float))
  : list Row :=
  match records with
  | [] => []
  | (dt, p) :: rest => mk_row i dt p :: rows_from (S i) rest
  end.

(** [pd.DataFrame(records)] for a list of [{'datetime': dt, 'price': p}]:
    the rows in order, labelled from 0. *)
Definition DataFrame (records : list (datetime * spec_float)) : list Row :=
  rows_from 0 records.

(** [df.sort_values('datetime')]: the rows by ascending [datetime], each
    keeping its label. The order pandas gives rows of equal [datetime] is
    not specified; here they keep their relative order. *)
Definition sort_values (df : list Row) : list Row := RowSort.sort df.

End Pandas.
Export Pandas.

(* ================================================================== *)
(** ** utils.py: [process_pricing_data] *)

Module Utils.

Local Open Scope py_scope.

(** The element type of [pricing_data]: [{'datetime': dt, 'price': p}]. *)
Definition record : Type := (datetime * spec_float)%type.

(** The two locals the loops update. *)
Record locals : Type := mk_locals
  { pricing_data : list record; skipped_count : nat }.

(** [re.sub(r'[+-]\d{4}$', '', datetime_str)]: a [TypeError] unless the
    argument is a string. *)
Definition clean_offset (datetime_str : pyval) : exn + string :=
  match datetime_str with
  | PStr s => inr (Re.sub_offset s)
  | _ => inl (Raise TypeError
                ("expected string or bytes-like object, got '"
                 ++ type_name datetime_str ++ "'"))
  end.

(** The inner [try] around the two [strptime] calls. *)
Definition parse_timestamp (datetime_clean : string) : exn + datetime :=
  match strptime datetime_clean with
  | inr dt => inr dt
  | inl e =>
      match exn_cls e with
      | ValueError => strptime (Re.sub_fraction datetime_clean)
      | _ => inl e
      end
  end.

(** The body of the [try] that handles one detail: clean and parse the
    timestamp, convert the price, build the record. *)
Definition parse_detail (datetime_str price : pyval) : exn + record :=
  match clean_offset datetime_str with
  | inl e => inl e
  | inr datetime_clean =>
      match parse_timestamp datetime_clean with
      | inl e => inl e
      | inr dt =>
          match py_float price with
          | inl e => inl e
          | inr price_float => inr (dt, price_float)
          end
      end
  end.

(** One pass of the loop over [price_details]. *)
Definition process_detail (detail : pyval) (st : locals) : M locals :=
  match detail with
  | PDict d =>
      let datetime_str := dict_get d "startIntervalTimeStamp" PNone in
      let price := dict_get d "intervalPrice" PNone in
      if truthy datetime_str && negb (is_None price) then
        try_except
          (r <- lift (parse_detail datetime_str price) ;;
           ret (mk_locals (pricing_data st ++ [r])%list (skipped_count st)))
          is_ValueError_or_TypeError
          (fun e =>
             print (WarnSkip e) ;;;
             print (WarnSkipValues datetime_str price) ;;;
             ret (mk_locals (pricing_data st) (skipped_count st + 1)))
      else ret st
  | _ => ret st
  end.

Fixpoint for_each {A : Type} (step : pyval -> A -> M A) (items : list pyval)
  (st : A) : M A :=
  match items with
  | [] => ret st
  | x :: rest => st' <- step x st ;; for_each step rest st'
  end.

(** One pass of the loop over [data_list]. *)
Definition process_item (data_item : pyval) (st : locals) : M locals :=
  match data_item with
  | PDict d =>
      let price_details := dict_get d "priceDetails" (PList []) in
      if negb (truthy price_details) then ret st
      else
        details <- lift (py_iter price_details) ;;
        for_each process_detail details st
  | _ => ret st
  end.

Definition expected_dict_msg (data : pyval) : string :=
  "Expected dict but got " ++ type_name data.

Definition no_data_msg : string :=
  "No data found in API response. The API may not have data for the selected date range.".

Definition no_records_msg (skipped : nat) : string :=
  "No valid pricing data records found after processing."
  ++ (if (0 <? skipped)%nat
      then " Skipped " ++ str_nat skipped ++ " invalid records."
      else "")
  ++ " This may indicate: (1) No data available for the selected date range, (2) API response structure changed, or (3) All records had parsing errors.".

(** The body of the outer [try]. *)
Definition process_body (data : pyval) : M (list Row) :=
  match data with
  | PDict d =>
      let data_list := dict_get d "data" (PList []) in
      if negb (truthy data_list) then
        print (WarnNoData (dict_keys d)) ;;;
        raise (Raise ValueError no_data_msg)
      else
        items <- lift (py_iter data_list) ;;
        st <- for_each process_item items (mk_locals [] 0) ;;
        match pricing_data st with
        | [] => raise (Raise ValueError (no_records_msg (skipped_count st)))
        | _ => ret (sort_values (DataFrame (pricing_data st)))
        end
  | _ => raise (Raise ValueError (expected_dict_msg data))
  end.

Definition process_failed (e : exn) : exn :=
  Raise Exception ("Failed to process data: " ++ str_exn e).

(** [process_pricing_data(data)] *)
Definition process_pricing_data (data : pyval) : M (list Row) :=
  try_except (process_body data) (fun _ => true)
    (fun e =>
       print (ErrProcessing e) ;;;
       print (DataReceived data) ;;;
       raise (process_failed e)).

End Utils.
Export Utils.

(* ================================================================== *)
(** ** The [requests] library and [fetch_energy_data] *)

Module Requests.

Record Request : Type := mk_request
  { req_url : string; req_params : list (string * pyval) }.

(** What the client keeps of a response: the status line, the final URL
    and what [json.loads] does with the text of the body. It returns the
    decoded value or raises: [json.JSONDecodeError] for a text that is
    not JSON, and exceptions of other classes too ([ValueError] for an
    integer of more than 4300 digits, [RecursionError] for a nesting too
    deep). *)
Record Response : Type := mk_response
  { status_code : Z; reason : string; url : string;
    json_result : exn + pyval }.

(** The ways [requests.get] fails without a response. *)
Inductive transport_failure : Type :=
| NoConnection (msg : string)
| TimedOut (msg : string)
| RedirectLoop (msg : string).

Definition exn_of_transport (f : transport_failure) : exn :=
  match f with
  | NoConnection msg => Raise ConnectionError msg
  | TimedOut msg => Raise Timeout msg
  | RedirectLoop msg => Raise TooManyRedirects msg
  end.

(** The remote side answers a request knowing those sent before it; the
    client records what it sends. *)
Record World : Type := mk_world
  { network : list Request -> Request -> transport_failure + Response;
    sent : list Request }.

(** [requests.get(url, params=params)] *)
Definition requests_get (u : string) (params : list (string * pyval))
  (w : World) : (exn + Response) * World :=
  let rq := mk_request u params in
  (match network w (sent w) rq with
   | inl f => inl (exn_of_transport f)
   | inr r => inr r
   end,
   mk_world (network w) (sent w ++ [rq])%list).

Definition http_error_msg (kind : string) (r : Response) : string :=
  str_int (status_code r) ++ " " ++ kind ++ ": " ++ reason r
  ++ " for url: " ++ url r.

(** [response.raise_for_status()] *)
Definition raise_for_status (r : Response) : exn + unit :=
  if ((400 <=? status_code r) && (status_code r <? 500))%Z then
    inl (Raise HTTPError (http_error_msg "Client Error" r))
  else if ((500 <=? status_code r) && (status_code r <? 600))%Z then
    inl (Raise HTTPError (http_error_msg "Server Error" r))
  else inr tt.

(** [response.json()]: [except JSONDecodeError as e] raises the
    [JSONDecodeError] of [requests.exceptions] in its place, with the same
    text; an exception of another class is not caught. *)
Definition response_json (r : Response) : exn + pyval :=
  match json_result r with
  | inl e =>
      match exn_cls e with
      | json_JSONDecodeError | JSONDecodeError =>
          inl (Raise JSONDecodeError (exn_msg e))
      | _ => inl e
      end
  | inr v => inr v
  end.

End Requests.
Export Requests.

Module Fetch.

Definition base_url : string := "https://pge-pe-api.gridx.com/v1/getPricing".

Definition params (start_date end_date : string)
  : list (string * pyval) :=
  [ ("utility", PStr "PGE");
    ("market", PStr "DAM");
    ("startdate", PStr start_date);
    ("enddate", PStr end_date);
    ("ratename", PStr "EV2A");
    ("representativeCircuitId", PStr "024040403");
    ("program", PStr "CalFUSE") ].

Definition fetch_failed (e : exn) : exn :=
  Raise Exception ("Failed to fetch data: " ++ str_exn e).

(** [fetch_energy_data(start_date, end_date)] *)
Definition fetch_energy_data (start_date end_date : string) (w : World)
  : (exn + pyval) * World :=
  let '(got, w') := requests_get base_url (params start_date end_date) w in
  let attempt :=
    match got with
    | inl e => inl e
    | inr response =>
        match raise_for_status response with
        | inl e => inl e
        | inr _ => response_json response
        end
    end in
  match attempt with
  | inr v => (inr v, w')
  | inl e => if is_RequestException e then (inl (fetch_failed e), w')
             else (inl e, w')
  end.

End Fetch.
Export Fetch.

(* ================================================================== *)
(** ** What one pass over a response visits *)

Module Pass.

(** What the loop body does with one element of [price_details]. *)
Inductive verdict : Type :=
| Absent
| Valid (r : record)
| Invalid (e : exn) (datetime_str price : pyval)
| Fatal (e : exn).

Definition verdict_of (detail : pyval) : verdict :=
  match detail with
  | PDict d =>
      let datetime_str := dict_get d "startIntervalTimeStamp" PNone in
      let price := dict_get d "intervalPrice" PNone in
      if truthy datetime_str && negb (is_None price) then
        match parse_detail datetime_str price with
        | inr r => Valid r
        | inl e => if is_ValueError_or_TypeError e
                   then Invalid e datetime_str price
                   else Fatal e
        end
      else Absent
  | _ => Absent
  end.

Definition is_fatal (detail : pyval) : bool :=
  match verdict_of detail with Fatal _ => true | _ => false end.

Definition is_valid (detail : pyval) : bool :=
  match verdict_of detail with Valid _ => true | _ => false end.

Definition is_invalid (detail : pyval) : bool :=
  match verdict_of detail with Invalid _ _ _ => true | _ => false end.

(** The records of the valid details, in order. *)
Definition records_of (details : list pyval) : list record :=
  flat_map (fun x => match verdict_of x with Valid r => [r] | _ => [] end)
    details.

(** The warnings printed for the invalid details, in order. *)
Definition warnings_of (details : list pyval) : list diag :=
  flat_map (fun x => match verdict_of x with
                     | Invalid e t p => [WarnSkip e; WarnSkipValues t p]
                     | _ => []
                     end) details.

Definition invalid_count (details : list pyval) : nat :=
  List.length (filter is_invalid details).

(** The details an element of [data_list] contributes: those of a mapping
    with a true [priceDetails], none otherwise. *)
Definition item_details (data_item : pyval) : exn + list pyval :=
  match data_item with
  | PDict d =>
      let price_details := dict_get d "priceDetails" (PList []) in
      if truthy price_details then py_iter price_details else inr []
  | _ => inr []
  end.

Definition details_or_nil (data_item : pyval) : list pyval :=
  match item_details data_item with inr ds => ds | inl _ => [] end.

Definition all_details (items : list pyval) : list pyval :=
  flat_map details_or_nil items.

Definition iterable_item (data_item : pyval) : bool :=
  match item_details data_item with inr _ => true | inl _ => false end.

(** No element stops the pass: every [priceDetails] can be iterated and no
    detail raises past the handler of the loop. *)
Definition completes (items : list pyval) : bool :=
  forallb iterable_item items
  && forallb (fun x => negb (is_fatal x)) (all_details items).

(** The locals after a pass that started from [st]. *)
Definition after (st : locals) (details : list pyval) : locals :=
  mk_locals (pricing_data st ++ records_of details)%list
            (skipped_count st + invalid_count details).

Definition row_le (a b : Row) : Prop :=
  datetime_leb (row_datetime a) (row_datetime b) = true.

Definition row_record (r : Row) : record := (row_datetime r, row_price r).

(** The timestamp shape [YYYY-MM-DDTHH:MM:SS]. *)
Definition clean_form (s : string) : bool :=
  match s with
  | String y1 (String y2 (String y3 (String y4 (String a
    (String m1 (String m2 (String b
    (String d1 (String d2 (String t
    (String h1 (String h2 (String c
    (String n1 (String n2 (String e
    (String s1 (String s2 EmptyString)))))))))))))))))) =>
      is_digit y1 && is_digit y2 && is_digit y3 && is_digit y4
      && is_char "-" a && is_digit m1 && is_digit m2
      && is_char "-" b && is_digit d1 && is_digit d2
      && is_char "T" t && is_digit h1 && is_digit h2
      && is_char ":" c && is_digit n1 && is_digit n2
      && is_char ":" e && is_digit s1 && is_digit s2
  | _ => false
  end.

(** [sub in s] *)
Fixpoint contains (sub s : string) : bool :=
  String.prefix sub s
  || match s with
     | EmptyString => false
     | String _ s' => contains sub s'
     end.

End Pass.
Export Pass.

(* ================================================================== *)
(** ** The failures the two functions raise, and sample responses *)

Module Failures.

(** Raised for an input that is not a [dict]. *)
Definition malformed_failure (data : pyval) : exn :=
  process_failed (Raise ValueError (expected_dict_msg data)).

(** Raised when [data] is absent or false. *)
Definition no_data_failure : exn :=
  process_failed (Raise ValueError no_data_msg).

(** Raised when the pass ends with no record. *)
Definition no_records_failure (skipped : nat) : exn :=
  process_failed (Raise ValueError (no_records_msg skipped)).

(** The request [fetch_energy_data] sends. *)
Definition the_request (start_date end_date : string) : Request :=
  mk_request base_url (params start_date end_date).

(** The statuses [raise_for_status] raises for. *)
Definition bad_status (r : Response) : bool :=
  ((400 <=? status_code r) && (status_code r <? 600))%Z.

End Failures.
Export Failures.

Module Samples.

Definition detail (ts : string) (price : pyval) : pyval :=
  PDict [("startIntervalTimeStamp", PStr ts); ("intervalPrice", price)].

Definition response (details : list pyval) : pyval :=
  PDict [("data", PList [PDict [("priceDetails", PList details)]])].

(** An integer JSON can carry and binary64 cannot. *)
Definition huge_price : pyval := PInt (10 ^ 400).

Definition int_too_large : exn :=
  Raise OverflowError "int too large to convert to float".

Definition float_12_5 : spec_float := S754_finite false 7036874417766400 (-49).

Definition float_13 : spec_float := S754_finite false 7318349394477056 (-49).

Definition not_json : exn :=
  Raise json_JSONDecodeError "Expecting value: line 1 column 1 (char 0)".

Definition unavailable : World :=
  mk_world
    (fun _ _ => inr (mk_response 503 "Service Unavailable"
                       "https://pge-pe-api.gridx.com/v1/getPricing"
                       (inl not_json)))
    [].

(** A status that is neither a success nor a client or server error,
    with a JSON body. *)
Definition multiple_choices : World :=
  mk_world
    (fun _ _ => inr (mk_response 300 "Multiple Choices"
                       "https://pge-pe-api.gridx.com/v1/getPricing"
                       (inr (PDict [("data", PList [])]))))
    [].

(** What [json.loads] raises for an integer of 5000 digits. *)
Definition too_many_digits : exn :=
  Raise ValueError
    "Exceeds the limit (4300 digits) for integer string conversion: value has 5000 digits; use sys.set_int_max_str_digits() to increase the limit".

End Samples.
Export Samples.

(* ================================================================== *)
(** ** Shapes of strings and of response entries *)

Module Shapes.

Fixpoint all_digits (s : string) : bool :=
  match s with
  | EmptyString => true
  | String c s' => is_digit c && all_digits s'
  end.

(** What [\.\d+] matches: a dot and at least one digit. *)
Definition is_fraction (s : string) : bool :=
  match s with
  | String c (String d ds) => is_char "." c && is_digit d && all_digits ds
  | _ => false
  end.

(** What [[+-]\d{4}] matches: a sign and four digits. *)
Definition is_offset (s : string) : bool :=
  match s with
  | String c0 (String c1 (String c2 (String c3 (String c4 EmptyString)))) =>
      is_sign c0 && is_digit c1 && is_digit c2 && is_digit c3 && is_digit c4
  | _ => false
  end.

Fixpoint no_dot (s : string) : bool :=
  match s with
  | EmptyString => true
  | String c s' => negb (is_char "." c) && no_dot s'
  end.

(** Every candidate of a field matcher consumed a prefix without a dot. *)
Definition eats {A : Type} (l : list (A * string)) (s : string) : Prop :=
  forall v r, In (v, r) l -> exists c, s = c ++ r /\ no_dot c = true.

(** The entries of [data] the outer loop leaves with [continue]: not a
    [dict], or a [dict] whose [priceDetails] is absent or false. *)
Definition passed_over (data_item : pyval) : bool :=
  match data_item with
  | PDict d => negb (truthy (dict_get d "priceDetails" (PList [])))
  | _ => true
  end.

(** Output that holds none of the two lines of the outer handler. *)
Definition quiet (printed : list diag) : bool :=
  forallb (fun ev => match ev with
                     | ErrProcessing _ | DataReceived _ => false
                     | _ => true
                     end) printed.

(** A computation that only appends quiet output. *)
Definition prints {A : Type} (c : M A) : Prop :=
  forall out r out',
    c out = (r, out') ->
    exists printed, out' = (out ++ printed)%list /\ quiet printed = true.

(** What a [for] statement raises over a value that is not iterable. *)
Definition not_iterable (v : pyval) : exn :=
  Raise TypeError ("'" ++ type_name v ++ "' object is not iterable").

(** A network that answers every request with [r]. *)
Definition answering (r : Response) : World :=
  mk_world (fun _ _ => inr r) [].

Definition ok_response (body : pyval) : Response :=
  mk_response 200 "OK" "https://pge-pe-api.gridx.com/v1/getPricing"
    (inr body).

Definition not_found (body : pyval) : Response :=
  mk_response 404 "Not Found" "https://pge-pe-api.gridx.com/v1/getPricing"
    (inr body).

End Shapes.
Export Shapes.

(* ================================================================== *)
(** * Properties *)

(** ** Characters and the two substitutions *)

Lemma is_char_eq (x c : ascii) : is_char x c = true -> c = x.
Proof. unfold is_char. intros H. apply Ascii.eqb_eq in H. congruence. Qed.

Lemma digit_not_sign (c : ascii) : is_digit c = true -> is_sign c = false.
Proof.
  unfold is_digit, in_range, is_sign, is_char.
  intros H. apply andb_true_iff in H as [H1 H2].
  apply Nat.leb_le in H1, H2.
  destruct (Ascii.eqb_spec "+" c) as [<-|_]; [vm_compute in H1; lia|].
  destruct (Ascii.eqb_spec "-" c) as [<-|_]; [vm_compute in H1; lia|].
  reflexivity.
Qed.

Lemma digit_not_dot (c : ascii) : is_digit c = true -> is_char "." c = false.
Proof.
  unfold is_digit, in_range, is_char.
  intros H. apply andb_true_iff in H as [H1 H2].
  apply Nat.leb_le in H1, H2.
  destruct (Ascii.eqb_spec "." c) as [<-|_]; [vm_compute in H1; lia|].
  reflexivity.
Qed.

(** Splits the conjunction [clean_form] unfolds to and names the literal
    characters. *)
Ltac clean_form_chars H :=
  cbv beta iota delta [clean_form] in H;
  repeat match type of H with
         | (_ && _) = true =>
             let H' := fresh "D" in apply andb_true_iff in H as [H H']
         end;
  repeat match goal with
         | E : is_char _ _ = true |- _ => apply is_char_eq in E; subst
         end.

Lemma clean_form_sub_offset (s : string) :
  clean_form s = true -> Re.sub_offset s = s.
Proof.
  intros H.
  do 20 (destruct s as [|? s]; try discriminate H).
  clean_form_chars H.
  unfold Re.sub_offset, Re.match_offset.
  repeat match goal with
         | E : is_digit ?c = true |- _ =>
             rewrite ?(digit_not_sign c E), ?E; clear E
         end.
  reflexivity.
Qed.

Lemma sub_fraction_no_dot (s : string) :
  Repr.contains_char "." s = false -> Re.sub_fraction s = s.
Proof.
  unfold Re.sub_fraction.
  induction s as [|c s IH]; simpl; intros H; [reflexivity|].
  apply orb_false_iff in H as [Hc Hs].
  rewrite Hc. simpl. now rewrite IH.
Qed.

Lemma clean_form_no_dot (s : string) :
  clean_form s = true -> Repr.contains_char "." s = false.
Proof.
  intros H.
  do 20 (destruct s as [|? s]; try discriminate H).
  clean_form_chars H.
  cbv beta iota delta [Repr.contains_char].
  repeat match goal with
         | E : is_digit ?c = true |- _ =>
             rewrite ?(digit_not_dot c E); clear E
         end.
  reflexivity.
Qed.

(** After a match of the offset pattern nothing is left to match. *)
Lemma match_offset_rest (s rest : string) :
  Re.match_offset s = Some rest -> Re.sub_offset rest = rest.
Proof.
  unfold Re.match_offset.
  do 5 (destruct s as [|? s]; try discriminate).
  destruct (_ && _) eqn:E; [|discriminate].
  intros H; inversion H; subst rest; clear H.
  apply andb_true_iff in E as [_ E].
  destruct s as [|c [|? ?]]; try discriminate E; reflexivity.
Qed.

Lemma append_assoc (a b c : string) : (a ++ b) ++ c = a ++ (b ++ c).
Proof. induction a as [|x a IH]; cbn; [reflexivity|now rewrite IH]. Qed.

(** ** [strptime] and the retry *)

Lemma strptime_raises_ValueError (s : string) (e : exn) :
  strptime s = inl e -> exn_cls e = ValueError.
Proof.
  unfold strptime.
  destruct (format_matches s) as [|[dt rest] ?];
    [intros H; inversion H; reflexivity|].
  repeat match goal with
         | |- context [if ?b then _ else _] => destruct b
         end; intros H; inversion H; reflexivity.
Qed.

(** The second attempt is made exactly when the first one fails, on the
    string without its fractions. *)
Lemma parse_timestamp_attempts (s : string) :
  parse_timestamp s =
  match strptime s with
  | inr dt => inr dt
  | inl _ => strptime (Re.sub_fraction s)
  end.
Proof.
  unfold parse_timestamp.
  destruct (strptime s) as [e|dt] eqn:E; [|reflexivity].
  now rewrite (strptime_raises_ValueError s e E).
Qed.

Lemma parse_timestamp_nonempty (s : string) (dt : datetime) :
  parse_timestamp (Re.sub_offset s) = inr dt -> truthy (PStr s) = true.
Proof. destruct s; [vm_compute; discriminate|reflexivity]. Qed.

(** ** [float] *)


Lemma falsy_price_is_zero (price : pyval) (f : spec_float) :
  truthy price = false -> py_float price = inr f -> float_is_zero f = true.
Proof.
  destruct price as [|b|z|g|s|l|d]; cbn; intros Ht Hf; try discriminate Hf.
  - subst b. now inversion Hf.
  - apply negb_false_iff, Z.eqb_eq in Ht. subst z. now inversion Hf.
  - inversion Hf; subst. now apply negb_false_iff in Ht.
  - apply negb_false_iff, String.eqb_eq in Ht. subst s. discriminate Hf.
Qed.

(** ** The loops *)

(** The loop body acts by the verdict of its element. *)
Lemma process_detail_verdict (detail : pyval) (st : locals)
  (out : list diag) :
  process_detail detail st out =
  match verdict_of detail with
  | Absent => (inr st, out)
  | Valid r =>
      (inr (mk_locals (pricing_data st ++ [r]) (skipped_count st)), out)
  | Invalid e t p =>
      (inr (mk_locals (pricing_data st) (skipped_count st + 1)),
       out ++ [WarnSkip e; WarnSkipValues t p])
  | Fatal e => (inl e, out)
  end%list.
Proof.
  unfold process_detail, verdict_of.
  destruct detail; try reflexivity.
  destruct (truthy _ && negb _); [|reflexivity].
  unfold try_except, bind, lift, ret, print.
  destruct (parse_detail _ _) as [e|r]; [|reflexivity].
  destruct (is_ValueError_or_TypeError e); [|reflexivity].
  now rewrite <- app_assoc.
Qed.

Lemma after_nil (st : locals) : after st [] = st.
Proof.
  destruct st; unfold after, records_of, invalid_count; simpl.
  now rewrite app_nil_r, Nat.add_0_r.
Qed.

Lemma records_of_app (a b : list pyval) :
  records_of (a ++ b) = (records_of a ++ records_of b)%list.
Proof. apply flat_map_app. Qed.

Lemma warnings_of_app (a b : list pyval) :
  warnings_of (a ++ b) = (warnings_of a ++ warnings_of b)%list.
Proof. apply flat_map_app. Qed.

Lemma invalid_count_app (a b : list pyval) :
  invalid_count (a ++ b) = invalid_count a + invalid_count b.
Proof. unfold invalid_count. now rewrite filter_app, length_app. Qed.

Lemma after_app (st : locals) (a b : list pyval) :
  after st (a ++ b) = after (after st a) b.
Proof.
  unfold after; simpl.
  now rewrite records_of_app, invalid_count_app, app_assoc, Nat.add_assoc.
Qed.

(** A pass over details none of which is fatal ends, with the records of
    the valid ones appended, the invalid ones counted and reported. *)
Lemma for_each_details_ok (details : list pyval) :
  forallb (fun x => negb (is_fatal x)) details = true ->
  forall st out,
    for_each process_detail details st out =
    (inr (after st details), (out ++ warnings_of details)%list).
Proof.
  induction details as [|x l IH]; intros H st out.
  - simpl. now rewrite after_nil, app_nil_r.
  - simpl in H. apply andb_true_iff in H as [Hx Hl].
    cbn [for_each]. unfold bind at 1.
    rewrite process_detail_verdict.
    unfold is_fatal in Hx.
    unfold after, records_of, invalid_count, warnings_of, is_invalid.
    cbn [flat_map filter].
    destruct (verdict_of x); try discriminate Hx; cbn [List.length app];
      rewrite (IH Hl);
      unfold after, records_of, invalid_count, warnings_of, is_invalid;
      cbn [pricing_data skipped_count].
    + reflexivity.
    + now rewrite <- app_assoc.
    + now rewrite <- !app_assoc, <- Nat.add_assoc.
Qed.

Lemma for_each_details_inv (details : list pyval) :
  forall st out st' out',
    for_each process_detail details st out = (inr st', out') ->
    forallb (fun x => negb (is_fatal x)) details = true.
Proof.
  induction details as [|x l IH]; intros st out st' out' H; [reflexivity|].
  cbn [for_each] in H. unfold bind at 1 in H.
  rewrite process_detail_verdict in H.
  simpl. unfold is_fatal at 1.
  destruct (verdict_of x); try discriminate H; simpl; eauto.
Qed.

Lemma for_each_app {A : Type} (step : pyval -> A -> M A)
  (a b : list pyval) (st : A) (out : list diag) :
  for_each step (a ++ b) st out =
  bind (for_each step a st) (for_each step b) out.
Proof.
  revert st out; induction a as [|x a IH]; intros st out; [reflexivity|].
  rewrite <- app_comm_cons. cbn [for_each]. unfold bind.
  destruct (step x st out) as [[e|st1] out1]; [reflexivity|].
  rewrite IH. reflexivity.
Qed.

(** A fatal detail stops the pass where it stands. *)
Lemma for_each_details_fatal (before rest : list pyval) (x : pyval)
  (e : exn) (st : locals) (out : list diag) :
  forallb (fun y => negb (is_fatal y)) before = true ->
  verdict_of x = Fatal e ->
  for_each process_detail (before ++ x :: rest) st out =
  (inl e, (out ++ warnings_of before)%list).
Proof.
  intros H Hx. rewrite for_each_app. unfold bind at 1.
  rewrite (for_each_details_ok before H). cbn [for_each]. unfold bind.
  now rewrite process_detail_verdict, Hx.
Qed.

Lemma process_item_details (data_item : pyval) (st : locals)
  (out : list diag) :
  process_item data_item st out =
  match item_details data_item with
  | inr details => for_each process_detail details st out
  | inl e => (inl e, out)
  end.
Proof.
  unfold process_item, item_details.
  destruct data_item; try reflexivity.
  destruct (truthy _); simpl; [|reflexivity].
  unfold bind, lift. now destruct (py_iter _).
Qed.

Lemma for_each_items_ok (items : list pyval) :
  completes items = true ->
  forall st out,
    for_each process_item items st out =
    (inr (after st (all_details items)),
     (out ++ warnings_of (all_details items))%list).
Proof.
  unfold completes, all_details.
  induction items as [|x l IH]; intros H st out.
  - simpl. now rewrite after_nil, app_nil_r.
  - apply andb_true_iff in H as [Hi Hd].
    simpl in Hi. apply andb_true_iff in Hi as [Hx Hl].
    cbn [flat_map] in Hd |- *. rewrite forallb_app in Hd.
    apply andb_true_iff in Hd as [Hdx Hdl].
    cbn [for_each]. unfold bind at 1.
    rewrite process_item_details.
    unfold iterable_item in Hx.
    destruct (item_details x) as [e|ds] eqn:E; [discriminate Hx|].
    assert (Hds : details_or_nil x = ds)
      by (unfold details_or_nil; now rewrite E).
    rewrite Hds in *.
    rewrite (for_each_details_ok ds Hdx).
    rewrite IH by (now rewrite Hl, Hdl).
    now rewrite after_app, warnings_of_app, app_assoc.
Qed.

Lemma for_each_items_inv (items : list pyval) :
  forall st out st' out',
    for_each process_item items st out = (inr st', out') ->
    completes items = true.
Proof.
  unfold completes, all_details.
  induction items as [|x l IH]; intros st out st' out' H; [reflexivity|].
  cbn [for_each] in H. unfold bind at 1 in H.
  rewrite process_item_details in H.
  cbn [forallb flat_map]. rewrite forallb_app.
  unfold iterable_item at 1, details_or_nil at 1.
  destruct (item_details x) as [e|ds]; [discriminate H|].
  destruct (for_each process_detail ds st out) as [[e|st1] out1] eqn:E;
    [discriminate H|].
  apply for_each_details_inv in E. rewrite E.
  apply IH in H. apply andb_true_iff in H as [-> ->]. reflexivity.
Qed.

Lemma non_mapping_items (items : list pyval) :
  forallb (fun x => negb (is_dict x)) items = true ->
  completes items = true /\ all_details items = [].
Proof.
  unfold completes, all_details.
  induction items as [|x l IH]; intros H; [split; reflexivity|].
  cbn [forallb] in H. apply andb_true_iff in H as [Hx Hl].
  destruct (IH Hl) as [Hc Hd]. apply andb_true_iff in Hc as [Hc1 Hc2].
  assert (Hi : item_details x = inr [])
    by (destruct x; try reflexivity; discriminate Hx).
  assert (H1 : iterable_item x = true)
    by (unfold iterable_item; now rewrite Hi).
  assert (H2 : details_or_nil x = [])
    by (unfold details_or_nil; now rewrite Hi).
  cbn [forallb flat_map]. rewrite H1, H2, Hd, Hc1. split; reflexivity.
Qed.

(** ** The table *)

Lemma rows_from_records (i : nat) (rs : list record) :
  map row_record (rows_from i rs) = rs.
Proof.
  revert i; induction rs as [|[dt p] rs IH]; intros i; simpl; [reflexivity|].
  now rewrite IH.
Qed.

Lemma rows_from_index (i : nat) (rs : list record) :
  map row_index (rows_from i rs) = seq i (List.length rs).
Proof.
  revert i; induction rs as [|[dt p] rs IH]; intros i; simpl; [reflexivity|].
  now rewrite IH.
Qed.

Lemma sort_values_perm (df : list Row) : Permutation df (sort_values df).
Proof. apply RowSort.Permuted_sort. Qed.

Lemma sort_values_sorted (df : list Row) : Sorted row_le (sort_values df).
Proof. exact (RowSort.Sorted_sort df). Qed.

Lemma lex_compare_trans (a b c : list nat) :
  lex_compare a b <> Gt -> lex_compare b c <> Gt -> lex_compare a c <> Gt.
Proof.
  revert b c; induction a as [|x a IH]; intros [|y b] [|z c]; simpl;
    try congruence.
  destruct (Nat.compare_spec x y), (Nat.compare_spec y z),
    (Nat.compare_spec x z); try congruence; try lia; subst; eauto.
Qed.

Lemma row_le_trans (a b c : Row) : row_le a b -> row_le b c -> row_le a c.
Proof.
  unfold row_le, datetime_leb, datetime_compare. intros H1 H2.
  pose proof (lex_compare_trans (datetime_key (row_datetime a))
                (datetime_key (row_datetime b))
                (datetime_key (row_datetime c))) as T.
  destruct (lex_compare (datetime_key (row_datetime a))
              (datetime_key (row_datetime b))); try discriminate H1;
  destruct (lex_compare (datetime_key (row_datetime b))
              (datetime_key (row_datetime c))); try discriminate H2;
  destruct (lex_compare (datetime_key (row_datetime a))
              (datetime_key (row_datetime c))); try reflexivity;
  exfalso; apply T; congruence.
Qed.

(** Every row is no later than every row after it. *)
Lemma sort_values_ascending (df : list Row) :
  StronglySorted row_le (sort_values df).
Proof.
  apply Sorted_StronglySorted; [|apply sort_values_sorted].
  intros a b c. apply row_le_trans.
Qed.

Lemma record_in_frame (rs : list record) (r : record) :
  In r rs ->
  exists row, In row (sort_values (DataFrame rs)) /\ row_record row = r.
Proof.
  intros H. rewrite <- (rows_from_records 0 rs) in H.
  apply in_map_iff in H as [row [E Hin]].
  exists row. split; [|exact E].
  eapply Permutation_in; [apply sort_values_perm|exact Hin].
Qed.

(** ** [process_pricing_data], case by case *)

Lemma process_not_dict (data : pyval) (out : list diag) :
  is_dict data = false ->
  process_pricing_data data out =
  (inl (malformed_failure data),
   (out ++ [ErrProcessing (Raise ValueError (expected_dict_msg data));
            DataReceived data])%list).
Proof.
  intros H. unfold process_pricing_data, try_except, process_body.
  destruct data; try discriminate H;
    unfold raise, bind, print; cbn; now rewrite <- app_assoc.
Qed.

Lemma process_no_data (d : list (string * pyval)) (out : list diag) :
  truthy (dict_get d "data" (PList [])) = false ->
  process_pricing_data (PDict d) out =
  (inl no_data_failure,
   (out ++ [WarnNoData (dict_keys d);
            ErrProcessing (Raise ValueError no_data_msg);
            DataReceived (PDict d)])%list).
Proof.
  intros H. unfold process_pricing_data, try_except, process_body.
  rewrite H. unfold raise, bind, print; cbn. now rewrite <- !app_assoc.
Qed.

Lemma process_not_iterable (d : list (string * pyval)) (e : exn)
  (out : list diag) :
  truthy (dict_get d "data" (PList [])) = true ->
  py_iter (dict_get d "data" (PList [])) = inl e ->
  process_pricing_data (PDict d) out =
  (inl (process_failed e),
   (out ++ [ErrProcessing e; DataReceived (PDict d)])%list).
Proof.
  intros H1 H2. unfold process_pricing_data, try_except, process_body.
  rewrite H1. cbn [negb]. unfold bind at 1, lift. rewrite H2.
  unfold raise, bind, print; cbn. now rewrite <- !app_assoc.
Qed.

Lemma process_scanned (d : list (string * pyval)) (items : list pyval)
  (out : list diag) :
  truthy (dict_get d "data" (PList [])) = true ->
  py_iter (dict_get d "data" (PList [])) = inr items ->
  process_pricing_data (PDict d) out =
  match for_each process_item items (mk_locals [] 0) out with
  | (inl e, out') =>
      (inl (process_failed e),
       (out' ++ [ErrProcessing e; DataReceived (PDict d)])%list)
  | (inr st, out') =>
      match pricing_data st with
      | [] =>
          (inl (no_records_failure (skipped_count st)),
           (out' ++ [ErrProcessing
                       (Raise ValueError (no_records_msg (skipped_count st)));
                     DataReceived (PDict d)])%list)
      | _ => (inr (sort_values (DataFrame (pricing_data st))), out')
      end
  end.
Proof.
  intros H1 H2. unfold process_pricing_data, try_except, process_body.
  rewrite H1. cbn [negb]. unfold bind at 1, lift. rewrite H2.
  unfold bind at 1.
  destruct (for_each process_item items _ out) as [[e|st] out'].
  - unfold raise, bind, print; cbn. now rewrite <- !app_assoc.
  - destruct (pricing_data st); [|reflexivity].
    unfold raise, bind, print; cbn. now rewrite <- !app_assoc.
Qed.

(** A pass that completes with a record returns the sorted table. *)
Lemma process_returns (d : list (string * pyval)) (items : list pyval)
  (out : list diag) :
  truthy (dict_get d "data" (PList [])) = true ->
  py_iter (dict_get d "data" (PList [])) = inr items ->
  completes items = true ->
  records_of (all_details items) <> [] ->
  process_pricing_data (PDict d) out =
  (inr (sort_values (DataFrame (records_of (all_details items)))),
   (out ++ warnings_of (all_details items))%list).
Proof.
  intros H1 H2 H3 H4. rewrite (process_scanned d items out H1 H2).
  rewrite (for_each_items_ok items H3). unfold after; cbn.
  destruct (records_of (all_details items)); [contradiction|reflexivity].
Qed.

(** A pass that completes with no record raises. *)
Lemma process_no_records (d : list (string * pyval)) (items : list pyval)
  (out : list diag) :
  truthy (dict_get d "data" (PList [])) = true ->
  py_iter (dict_get d "data" (PList [])) = inr items ->
  completes items = true ->
  records_of (all_details items) = [] ->
  process_pricing_data (PDict d) out =
  (inl (no_records_failure (invalid_count (all_details items))),
   (out ++ warnings_of (all_details items)
    ++ [ErrProcessing
          (Raise ValueError
             (no_records_msg (invalid_count (all_details items))));
        DataReceived (PDict d)])%list).
Proof.
  intros H1 H2 H3 H4. rewrite (process_scanned d items out H1 H2).
  rewrite (for_each_items_ok items H3). unfold after; cbn.
  rewrite H4. now rewrite <- app_assoc.
Qed.

(** Whenever a table is returned, the pass completed over a mapping. *)
Lemma process_returns_inv (data : pyval) (out out' : list diag)
  (df : list Row) :
  process_pricing_data data out = (inr df, out') ->
  exists d items,
    data = PDict d
    /\ truthy (dict_get d "data" (PList [])) = true
    /\ py_iter (dict_get d "data" (PList [])) = inr items
    /\ completes items = true
    /\ records_of (all_details items) <> []
    /\ df = sort_values (DataFrame (records_of (all_details items)))
    /\ out' = (out ++ warnings_of (all_details items))%list.
Proof.
  intros H.
  destruct (is_dict data) eqn:Hd;
    [|rewrite (process_not_dict data out Hd) in H; discriminate H].
  destruct data as [| | | | | |d]; try discriminate Hd.
  destruct (truthy (dict_get d "data" (PList []))) eqn:Ht;
    [|rewrite (process_no_data d out Ht) in H; discriminate H].
  destruct (py_iter (dict_get d "data" (PList []))) as [e|items] eqn:Hi;
    [rewrite (process_not_iterable d e out Ht Hi) in H; discriminate H|].
  rewrite (process_scanned d items out Ht Hi) in H.
  destruct (for_each process_item items _ out) as [[e|st] o1] eqn:E;
    [discriminate H|].
  pose proof (for_each_items_inv _ _ _ _ _ E) as Hc.
  rewrite (for_each_items_ok items Hc) in E. inversion E; subst; clear E.
  unfold after in H; cbn in H.
  exists d, items. repeat split; auto.
  - intros Hn. rewrite Hn in H. discriminate H.
  - destruct (records_of (all_details items)); [discriminate H|].
    now inversion H.
  - destruct (records_of (all_details items)); [discriminate H|].
    now inversion H.
Qed.

(** The count of the invalid details can be read off the output: one
    [WarnSkip] each. *)
Lemma warnings_count (details : list pyval) :
  List.length (filter (fun x => match x with WarnSkip _ => true | _ => false end)
                 (warnings_of details))
  = invalid_count details.
Proof.
  unfold warnings_of, invalid_count, is_invalid.
  induction details as [|x l IH]; [reflexivity|].
  cbn [flat_map filter]. rewrite filter_app, length_app, IH.
  destruct (verdict_of x); reflexivity.
Qed.

(** What a completed pass over a response returns: the records of the
    valid details and nothing else, by ascending timestamp; one warning
    pair is printed for each invalid detail. *)
Lemma process_returns_valid_sorted (d : list (string * pyval))
  (items : list pyval) (out : list diag) :
  truthy (dict_get d "data" (PList [])) = true ->
  py_iter (dict_get d "data" (PList [])) = inr items ->
  completes items = true ->
  records_of (all_details items) <> [] ->
  exists df printed,
    process_pricing_data (PDict d) out = (inr df, (out ++ printed)%list)
    /\ Permutation (map row_record df) (records_of (all_details items))
    /\ StronglySorted row_le df
    /\ List.length
         (filter (fun x => match x with WarnSkip _ => true | _ => false end)
            printed)
       = invalid_count (all_details items).
Proof.
  intros H1 H2 H3 H4. eexists. eexists.
  split; [apply (process_returns d items out H1 H2 H3 H4)|].
  split; [|split].
  - rewrite <- (rows_from_records 0 (records_of (all_details items))) at 2.
    apply Permutation_map, Permutation_sym, sort_values_perm.
  - apply sort_values_ascending.
  - apply warnings_count.
Qed.

(** ** Telling the failures apart *)

Lemma malformed_not_no_data (v : pyval) :
  malformed_failure v <> no_data_failure.
Proof.
  unfold malformed_failure, no_data_failure, process_failed.
  cbn. discriminate.
Qed.

Lemma malformed_not_no_records (v : pyval) (n : nat) :
  malformed_failure v <> no_records_failure n.
Proof.
  unfold malformed_failure, no_records_failure, process_failed.
  cbn. discriminate.
Qed.

Lemma no_data_not_no_records (n : nat) :
  no_data_failure <> no_records_failure n.
Proof.
  unfold no_data_failure, no_records_failure, process_failed.
  cbn. discriminate.
Qed.

Lemma fetch_not_process (c1 c2 : exn) : fetch_failed c1 <> process_failed c2.
Proof. unfold fetch_failed, process_failed. cbn. discriminate. Qed.

Create HintDb failures.
#[export] Hint Resolve malformed_not_no_data malformed_not_no_records
  no_data_not_no_records fetch_not_process : failures.

Lemma bad_status_raises (r : Response) :
  bad_status r = true ->
  exists e, raise_for_status r = inl e /\ exn_cls e = HTTPError.
Proof.
  unfold bad_status, raise_for_status. intros H.
  apply andb_true_iff in H as [H1 H2]. rewrite H1. cbn.
  destruct (status_code r <? 500)%Z eqn:E; [eexists; split; reflexivity|].
  rewrite H2. apply Z.ltb_ge in E.
  replace (500 <=? status_code r)%Z with true
    by (symmetry; now apply Z.leb_le).
  eexists; split; reflexivity.
Qed.

Lemma good_status_passes (r : Response) :
  bad_status r = false -> raise_for_status r = inr tt.
Proof.
  unfold bad_status, raise_for_status. intros H.
  destruct (400 <=? status_code r)%Z eqn:A; cbn [andb] in H |- *.
  - rewrite H.
    destruct (status_code r <? 500)%Z eqn:B; [|now rewrite andb_false_r].
    apply Z.ltb_lt in B. apply Z.ltb_ge in H. lia.
  - destruct (500 <=? status_code r)%Z eqn:B; [|reflexivity].
    apply Z.leb_le in B. apply Z.leb_gt in A. lia.
Qed.

(** What [response.json()] raises is a request exception exactly when
    the decoder raised a decode error; any other exception is the
    decoder's own. *)
Lemma response_json_raises (r : Response) (e : exn) :
  response_json r = inl e ->
  is_RequestException e = true \/ json_result r = inl e.
Proof.
  unfold response_json. destruct (json_result r) as [[c m]|v]; [|discriminate].
  destruct c; cbn; intros H; inversion H; subst; auto.
Qed.

(** A failure of the fetch is the wrapped form of a request exception,
    or an exception of the decoder that is no request exception, as it
    was raised. *)
Lemma fetch_failure_form (start_date end_date : string) (w w' : World)
  (x : exn) :
  fetch_energy_data start_date end_date w = (inl x, w') ->
  (exists c, is_RequestException c = true /\ x = fetch_failed c)
  \/ (is_RequestException x = false
      /\ exists r,
           network w (sent w) (the_request start_date end_date) = inr r
           /\ bad_status r = false
           /\ json_result r = inl x).
Proof.
  unfold fetch_energy_data, requests_get.
  change (mk_request base_url (params start_date end_date))
    with (the_request start_date end_date).
  destruct (network w (sent w) _) as [f|r] eqn:N.
  - destruct f; cbn; intros H; inversion H; left; eexists;
      (split; [|reflexivity]); reflexivity.
  - destruct (bad_status r) eqn:B.
    + destruct (bad_status_raises r B) as [e [He Hc]]. rewrite He.
      assert (Q : is_RequestException e = true)
        by (unfold is_RequestException; now rewrite Hc).
      rewrite Q. intros H; inversion H. left. now exists e.
    + rewrite (good_status_passes r B).
      destruct (response_json r) as [e|v] eqn:J; [|discriminate].
      destruct (is_RequestException e) eqn:Q; intros H; inversion H; subst.
      * left. now exists e.
      * right. split; [exact Q|]. exists r. repeat split; auto.
        destruct (response_json_raises r x J) as [Q'|J']; [congruence|exact J'].
Qed.

Lemma process_failure_form (data : pyval) (out out' : list diag) (x : exn) :
  process_pricing_data data out = (inl x, out') ->
  exists c, x = process_failed c.
Proof.
  unfold process_pricing_data, try_except.
  destruct (process_body data out) as [[e|df] o]; [|discriminate].
  unfold bind, print, raise. intros H; inversion H. now exists e.
Qed.

(** Success or not, one call sends one request. *)
Lemma fetch_sends_one_request (start_date end_date : string) (w : World) :
  sent (snd (fetch_energy_data start_date end_date w))
  = (sent w ++ [the_request start_date end_date])%list.
Proof.
  unfold fetch_energy_data, requests_get.
  destruct (network w (sent w) _) as [f|r]; cbn.
  - now destruct (is_RequestException (exn_of_transport f)).
  - destruct (raise_for_status r) as [e|u].
    + now destruct (is_RequestException e).
    + destruct (response_json r) as [e|v]; [|reflexivity].
      now destruct (is_RequestException e).
Qed.

Lemma valid_detail_verdict (dd : list (string * pyval)) (ts : string)
  (price : pyval) (dt : datetime) (f : spec_float) :
  dict_lookup dd "startIntervalTimeStamp" = Some (PStr ts) ->
  dict_lookup dd "intervalPrice" = Some price ->
  price <> PNone ->
  parse_timestamp (Re.sub_offset ts) = inr dt ->
  py_float price = inr f ->
  verdict_of (PDict dd) = Valid (dt, f).
Proof.
  intros H1 H2 H3 H4 H5. unfold verdict_of, dict_get. rewrite H1, H2.
  rewrite (parse_timestamp_nonempty ts dt H4).
  replace (is_None price) with false by (destruct price; cbn; congruence).
  cbn [andb negb]. unfold parse_detail, clean_offset. now rewrite H4, H5.
Qed.

(** ** Which details stop the pass *)



(** A detail whose timestamp or price raises [ValueError] or [TypeError]
    is counted and reported, and the loop goes on. *)
Lemma parse_failure_is_skipped (d : list (string * pyval)) (e : exn)
  (rest : list pyval) (st : locals) (out : list diag) :
  let datetime_str := dict_get d "startIntervalTimeStamp" PNone in
  let price := dict_get d "intervalPrice" PNone in
  truthy datetime_str = true ->
  is_None price = false ->
  parse_detail datetime_str price = inl e ->
  is_ValueError_or_TypeError e = true ->
  for_each process_detail (PDict d :: rest) st out =
  for_each process_detail rest
    (mk_locals (pricing_data st) (skipped_count st + 1))
    (out ++ [WarnSkip e; WarnSkipValues datetime_str price])%list.
Proof.
  intros datetime_str price H1 H2 H3 H4.
  cbn [for_each]. unfold bind at 1. rewrite process_detail_verdict.
  unfold verdict_of. fold datetime_str. fold price.
  now rewrite H1, H2, H3, H4.
Qed.

(* ================================================================== *)
(** * The claims *)

(** C1. A response that mixes valid and invalid details should come back
    as the valid records alone. It does whenever the pass completes
    ([process_returns_valid_sorted]); but an invalid detail whose price is
    an integer too large for a float is not skipped: the response below
    holds a valid detail and such a detail, and the call fails instead of
    returning the valid record. *)
Theorem mixed_response_with_huge_price_fails :
  is_valid (detail "2024-01-01T00:00:00-0800" (PStr "12.5")) = true
  /\ py_float huge_price = inl int_too_large
  /\ fst (process_pricing_data
            (response [detail "2024-01-01T00:00:00-0800" (PStr "12.5");
                       detail "2024-01-01T01:00:00-0800" huge_price]) [])
     = inl (process_failed int_too_large).
Proof. repeat split; vm_compute; reflexivity. Qed.

(** C2. A detail whose price cannot be converted should be counted as
    skipped and the pass should go on. For a price that is an integer too
    large for a float, [float] raises [OverflowError], which the handler
    of the loop does not catch: nothing is counted or reported, the valid
    detail that follows is never reached, and the whole call fails. *)
Theorem huge_price_aborts_pass :
  process_pricing_data
    (response [detail "2024-01-01T00:00:00-0800" huge_price;
               detail "2024-01-01T01:00:00-0800" (PStr "12.5")]) []
  = (inl (process_failed int_too_large),
     [ErrProcessing int_too_large;
      DataReceived
        (response [detail "2024-01-01T00:00:00-0800" huge_price;
                   detail "2024-01-01T01:00:00-0800" (PStr "12.5")])]).
Proof. vm_compute. reflexivity. Qed.

(** C3, as stated, fails: a [data] list that holds no mapping is not
    reported as a malformed response but as one without valid records. *)
Lemma list_of_non_mappings_not_malformed :
  fst (process_pricing_data (PDict [("data", PList [PInt 1])]) [])
  = inl (no_records_failure 0)
  /\ no_records_failure 0
     <> malformed_failure (PDict [("data", PList [PInt 1])]).
Proof.
  split; [reflexivity|].
  intros H. exact (malformed_not_no_records _ _ (eq_sym H)).
Qed.

(** C3, amended. An input that is not a mapping fails with the malformed
    failure, which differs from the no-data and the no-records failures;
    a mapping whose [data] is a non-empty list holding no mapping fails
    with the no-records failure, without a count. *)
Theorem non_mapping_input_is_malformed (data : pyval) (out : list diag) :
  is_dict data = false
  \/ (exists d x items,
        data = PDict d
        /\ dict_lookup d "data" = Some (PList (x :: items))
        /\ forallb (fun y => negb (is_dict y)) (x :: items) = true) ->
  fst (process_pricing_data data out)
  = inl (if is_dict data then no_records_failure 0
         else malformed_failure data)
  /\ malformed_failure data <> no_data_failure
  /\ forall n, malformed_failure data <> no_records_failure n.
Proof.
  intros H. split; [|auto with failures].
  destruct H as [H | (d & x & items & -> & Hl & Hn)].
  - now rewrite (process_not_dict data out H), H.
  - destruct (non_mapping_items _ Hn) as [Hc Hd].
    assert (Hg : dict_get d "data" (PList []) = PList (x :: items))
      by (unfold dict_get; now rewrite Hl).
    rewrite (process_no_records d (x :: items) out); rewrite ?Hg; auto.
    + now rewrite Hd.
    + now rewrite Hd.
Qed.

Lemma non_mapping_input_is_malformed_witness :
  fst (process_pricing_data (PList [PInt 1]) [])
  = inl (malformed_failure (PList [PInt 1]))
  /\ fst (process_pricing_data (PDict [("data", PList [PStr "x"])]) [])
     = inl (no_records_failure 0).
Proof.
  split.
  - apply (non_mapping_input_is_malformed (PList [PInt 1]) []).
    left. reflexivity.
  - apply (non_mapping_input_is_malformed
             (PDict [("data", PList [PStr "x"])]) []).
    right. exists [("data", PList [PStr "x"])], (PStr "x"), [].
    repeat split; reflexivity.
Defined.

(** C4. A mapping without [data], or with an empty list under it, fails
    with the no-data failure, after a warning that lists the keys; that
    failure is not the malformed one. *)
Theorem missing_or_empty_data_is_no_data (d : list (string * pyval))
  (out : list diag) :
  dict_lookup d "data" = None \/ dict_lookup d "data" = Some (PList []) ->
  process_pricing_data (PDict d) out
  = (inl no_data_failure,
     (out ++ [WarnNoData (dict_keys d);
              ErrProcessing (Raise ValueError no_data_msg);
              DataReceived (PDict d)])%list)
  /\ forall v, no_data_failure <> malformed_failure v.
Proof.
  intros H. split.
  - apply process_no_data. unfold dict_get. now destruct H as [-> | ->].
  - intros v E. exact (malformed_not_no_data v (eq_sym E)).
Qed.

Lemma missing_or_empty_data_is_no_data_witness :
  fst (process_pricing_data (PDict [("status", PStr "ok")]) [])
  = inl no_data_failure
  /\ fst (process_pricing_data (PDict [("data", PList [])]) [])
     = inl no_data_failure.
Proof.
  split.
  - rewrite (proj1 (missing_or_empty_data_is_no_data
                      [("status", PStr "ok")] [] (or_introl eq_refl))).
    reflexivity.
  - rewrite (proj1 (missing_or_empty_data_is_no_data
                      [("data", PList [])] [] (or_intror eq_refl))).
    reflexivity.
Defined.

(** C5, as stated, fails: when no detail was skipped for a parse failure
    the message of the no-records failure carries no count. *)
Lemma no_records_message_without_count :
  fst (process_pricing_data (PDict [("data", PList [PDict []])]) [])
  = inl (no_records_failure 0)
  /\ invalid_count (all_details [PDict []]) = 0
  /\ contains (str_nat 0) (exn_msg (no_records_failure 0)) = false.
Proof. repeat split; vm_compute; reflexivity. Qed.

(** C5, amended. A mapping with a true, iterable [data] whose pass
    completes with no valid record fails with the no-records failure; its
    message gives the number of details skipped for a parse failure when
    that number is positive, and says nothing of skipping when it is
    zero. *)
Theorem no_records_failure_reports_skips (d : list (string * pyval))
  (items : list pyval) (out : list diag) :
  truthy (dict_get d "data" (PList [])) = true ->
  py_iter (dict_get d "data" (PList [])) = inr items ->
  completes items = true ->
  records_of (all_details items) = [] ->
  let n := invalid_count (all_details items) in
  fst (process_pricing_data (PDict d) out) = inl (no_records_failure n)
  /\ (0 < n ->
      exn_msg (no_records_failure n)
      = "Failed to process data: No valid pricing data records found after processing. Skipped "
        ++ str_nat n
        ++ " invalid records. This may indicate: (1) No data available for the selected date range, (2) API response structure changed, or (3) All records had parsing errors.")
  /\ (n = 0 -> contains "Skipped" (exn_msg (no_records_failure n)) = false).
Proof.
  intros H1 H2 H3 H4 n. repeat split.
  - now rewrite (process_no_records d items out H1 H2 H3 H4).
  - intros Hn. unfold no_records_failure, process_failed, no_records_msg.
    apply Nat.ltb_lt in Hn. rewrite Hn. cbn.
    rewrite append_assoc. reflexivity.
  - intros ->. vm_compute. reflexivity.
Qed.

Lemma no_records_failure_reports_skips_witness :
  fst (process_pricing_data
         (response [detail "yesterday" (PInt 1);
                    detail "2024-01-01T00:00:00" (PStr "n/a")]) [])
  = inl (no_records_failure 2).
Proof.
  apply (no_records_failure_reports_skips
           [("data",
             PList [PDict [("priceDetails",
                            PList [detail "yesterday" (PInt 1);
                                   detail "2024-01-01T00:00:00"
                                     (PStr "n/a")])]])]
           [PDict [("priceDetails",
                    PList [detail "yesterday" (PInt 1);
                           detail "2024-01-01T00:00:00" (PStr "n/a")])]]
           []); vm_compute; reflexivity.
Defined.

(** C6. A detail mapping without a timestamp, without a price or with a
    null price is passed over: nothing is raised, nothing is printed, no
    record is added and the skip counter is left as it was. *)
Theorem absent_fields_skipped_silently (d : list (string * pyval))
  (st : locals) (out : list diag) :
  dict_lookup d "startIntervalTimeStamp" = None
  \/ dict_lookup d "intervalPrice" = None
  \/ dict_lookup d "intervalPrice" = Some PNone ->
  process_detail (PDict d) st out = (inr st, out).
Proof.
  intros H. unfold process_detail, dict_get.
  destruct H as [-> | [-> | ->]]; cbn; try reflexivity;
    now rewrite andb_false_r.
Qed.

Lemma absent_fields_skipped_silently_witness :
  process_detail
    (PDict [("startIntervalTimeStamp", PStr "2024-01-01T00:00:00");
            ("intervalPrice", PNone)])
    (mk_locals [] 3) []
  = (inr (mk_locals [] 3), []).
Proof.
  apply (absent_fields_skipped_silently
           [("startIntervalTimeStamp", PStr "2024-01-01T00:00:00");
            ("intervalPrice", PNone)]).
  right. right. reflexivity.
Defined.

(** C7, as stated, fails: a response whose [data] is a number fails with
    an exception that is none of the four. *)
Lemma non_iterable_data_is_a_fifth_failure :
  exists x,
    fst (process_pricing_data (PDict [("data", PInt 5)]) []) = inl x
    /\ (forall c, x <> fetch_failed c)
    /\ (forall v, x <> malformed_failure v)
    /\ x <> no_data_failure
    /\ (forall n, x <> no_records_failure n).
Proof.
  eexists. split; [vm_compute; reflexivity|].
  repeat split; intros;
    unfold fetch_failed, malformed_failure, no_data_failure,
      no_records_failure, process_failed; cbn; discriminate.
Qed.

(** C7, amended. A failure of [process_pricing_data] is always a plain
    [Exception] with the message ["Failed to process data: "] followed by
    the text of its cause. A failure of [fetch_energy_data] is a plain
    [Exception] with the message ["Failed to fetch data: "] followed by
    the text of its cause when the cause is a request exception; an
    exception of the decoder that is no request exception reaches the
    caller as it was raised. A wrapped fetch failure never reads like a
    failed normalisation, and the malformed, no-data and no-records
    failures have the messages of lines 53, 59 and 107-111, which differ
    from one another. *)
Theorem failures_told_apart_by_message :
  (forall start_date end_date w w' x,
      fetch_energy_data start_date end_date w = (inl x, w') ->
      (exists c,
          is_RequestException c = true
          /\ x = Raise Exception ("Failed to fetch data: " ++ exn_msg c))
      \/ (is_RequestException x = false
          /\ exists r,
               network w (sent w) (the_request start_date end_date) = inr r
               /\ json_result r = inl x))
  /\ (forall data out out' x,
         process_pricing_data data out = (inl x, out') ->
         exists c,
           x = Raise Exception ("Failed to process data: " ++ exn_msg c))
  /\ (forall c1 c2,
         Raise Exception ("Failed to fetch data: " ++ exn_msg c1)
         <> process_failed c2)
  /\ (forall v n,
         malformed_failure v
         = Raise Exception
             ("Failed to process data: Expected dict but got "
              ++ type_name v)
         /\ no_data_failure
            = Raise Exception
                "Failed to process data: No data found in API response. The API may not have data for the selected date range."
         /\ (exists rest,
               no_records_failure n
               = Raise Exception
                   ("Failed to process data: No valid pricing data records found after processing."
                    ++ rest))
         /\ malformed_failure v <> no_data_failure
         /\ malformed_failure v <> no_records_failure n
         /\ no_data_failure <> no_records_failure n).
Proof.
  split.
  { intros sd ed w w' x H.
    destruct (fetch_failure_form sd ed w w' x H)
      as [[c [Hc ->]] | [Hx (r & Hn & _ & Hj)]].
    - left. exists c. split; [exact Hc|reflexivity].
    - right. split; [exact Hx|]. now exists r. }
  split.
  { intros data out out' x H.
    destruct (process_failure_form data out out' x H) as [c ->].
    now exists c. }
  split; [intros c1 c2; exact (fetch_not_process c1 c2)|].
  intros v n. repeat split; auto with failures.
  eexists. unfold no_records_failure, process_failed, no_records_msg, str_exn.
  cbn [exn_msg]. rewrite <- append_assoc. reflexivity.
Qed.

(** C8, as stated, fails: for a status that is no success and no client
    or server error (300 Multiple Choices, which is not followed as a
    redirect) with a JSON body, the call returns the body. *)
Lemma other_status_returns_body :
  exists r,
    network multiple_choices (sent multiple_choices)
      (the_request "20240101" "20240102") = inr r
    /\ status_code r = 300%Z
    /\ fst (fetch_energy_data "20240101" "20240102" multiple_choices)
       = inr (PDict [("data", PList [])]).
Proof. eexists. repeat split. Qed.

(** C8, amended. When [requests.get] raises, or the status is a client or
    server error (400-599), or the body is not JSON,
    [fetch_energy_data] raises a plain [Exception] whose message is
    ["Failed to fetch data: "] followed by the text of the cause (the
    text of the transport exception, the status line of the HTTP error,
    the message of the decoder), and exactly one request has been sent. *)
Theorem fetch_failure_single_request (start_date end_date : string)
  (w : World) (cause : string) :
  let rq := the_request start_date end_date in
  let answer := network w (sent w) rq in
  (exists f, answer = inl f /\ cause = exn_msg (exn_of_transport f))
  \/ (exists r,
        answer = inr r
        /\ bad_status r = true
        /\ cause = str_int (status_code r) ++ " "
                   ++ (if (status_code r <? 500)%Z then "Client Error"
                       else "Server Error")
                   ++ ": " ++ reason r ++ " for url: " ++ url r)
  \/ (exists r,
        answer = inr r
        /\ bad_status r = false
        /\ json_result r = inl (Raise json_JSONDecodeError cause)) ->
  fetch_energy_data start_date end_date w
  = (inl (Raise Exception ("Failed to fetch data: " ++ cause)),
     mk_world (network w) (sent w ++ [rq])%list).
Proof.
  intros rq answer H.
  unfold fetch_energy_data, requests_get.
  change (mk_request base_url (params start_date end_date)) with rq.
  change (network w (sent w) rq) with answer.
  clearbody answer.
  destruct H as [(f & -> & ->) | [(r & -> & B & ->) | (r & -> & B & J)]].
  - now destruct f.
  - unfold bad_status in B. apply andb_true_iff in B as [B1 B2].
    unfold raise_for_status. rewrite B1. cbn [andb].
    destruct (status_code r <? 500)%Z eqn:E; [reflexivity|].
    rewrite B2. apply Z.ltb_ge in E.
    replace (500 <=? status_code r)%Z with true
      by (symmetry; now apply Z.leb_le).
    reflexivity.
  - rewrite (good_status_passes r B). unfold response_json. rewrite J.
    reflexivity.
Qed.

Lemma fetch_failure_single_request_witness :
  fetch_energy_data "20240101" "20240102" unavailable
  = (inl (Raise Exception
            ("Failed to fetch data: "
             ++ "503 Server Error: Service Unavailable for url: https://pge-pe-api.gridx.com/v1/getPricing")),
     mk_world (network unavailable)
       (sent unavailable ++ [the_request "20240101" "20240102"])%list).
Proof.
  apply (fetch_failure_single_request "20240101" "20240102" unavailable).
  right. left. eexists. repeat split; reflexivity.
Defined.

(** C9. On a string already of the form YYYY-MM-DDTHH:MM:SS neither
    substitution of the cleanup changes anything, alone or one after the
    other. *)
Theorem cleanup_keeps_clean_form (s : string) :
  clean_form s = true ->
  Re.sub_offset s = s
  /\ Re.sub_fraction s = s
  /\ Re.sub_fraction (Re.sub_offset s) = s.
Proof.
  intros H.
  pose proof (clean_form_sub_offset s H) as H1.
  pose proof (sub_fraction_no_dot s (clean_form_no_dot s H)) as H2.
  repeat split; congruence.
Qed.

Lemma cleanup_keeps_clean_form_witness :
  Re.sub_offset "2024-01-01T00:00:00" = "2024-01-01T00:00:00"
  /\ Re.sub_fraction "2024-01-01T00:00:00" = "2024-01-01T00:00:00"
  /\ Re.sub_fraction (Re.sub_offset "2024-01-01T00:00:00")
     = "2024-01-01T00:00:00".
Proof.
  apply (cleanup_keeps_clean_form "2024-01-01T00:00:00"). reflexivity.
Defined.

(** C10. Only a null price counts as absent. A detail with a timestamp
    that parses and a price that is not null and converts to a float has
    its record in every table returned for a response that holds it; when
    the price is false (0, 0.0, false) the price of that record is a
    zero. *)
Theorem falsy_price_is_kept (d item dd : list (string * pyval))
  (items details : list pyval) (ts : string) (price : pyval)
  (dt : datetime) (f : spec_float) (out : list diag) (df : list Row) :
  dict_lookup d "data" = Some (PList items) ->
  In (PDict item) items ->
  dict_lookup item "priceDetails" = Some (PList details) ->
  In (PDict dd) details ->
  dict_lookup dd "startIntervalTimeStamp" = Some (PStr ts) ->
  parse_timestamp (Re.sub_offset ts) = inr dt ->
  dict_lookup dd "intervalPrice" = Some price ->
  price <> PNone ->
  py_float price = inr f ->
  fst (process_pricing_data (PDict d) out) = inr df ->
  (exists row, In row df /\ row_datetime row = dt /\ row_price row = f)
  /\ (truthy price = false -> float_is_zero f = true).
Proof.
  intros Hd Hi Hp Hdd Hts Hparse Hprice Hnn Hf Hret.
  split; [|intros Ht; now apply (falsy_price_is_zero price f)].
  destruct (process_pricing_data (PDict d) out) as [res out'] eqn:E.
  cbn in Hret. subst res.
  apply process_returns_inv in E
    as (d0 & items0 & Ed & Ht & Hiter & Hc & Hne & -> & _).
  inversion Ed; subst d0; clear Ed.
  assert (Hg : dict_get d "data" (PList []) = PList items)
    by (unfold dict_get; now rewrite Hd).
  rewrite Hg in Hiter. cbn in Hiter. inversion Hiter; subst items0.
  assert (Hin : In (dt, f) (records_of (all_details items))).
  { unfold records_of. apply in_flat_map. exists (PDict dd). split.
    - unfold all_details. apply in_flat_map. exists (PDict item).
      split; [exact Hi|].
      unfold details_or_nil, item_details, dict_get. rewrite Hp.
      destruct details as [|x l]; [contradiction|]. exact Hdd.
    - rewrite (valid_detail_verdict dd ts price dt f); auto. now left. }
  destruct (record_in_frame _ _ Hin) as [row [Hrow Hrec]].
  exists row. split; [exact Hrow|].
  unfold row_record in Hrec. now inversion Hrec.
Qed.

Lemma falsy_price_is_kept_witness :
  (exists row,
      In row [mk_row 0 (mk_datetime 2024 1 1 0 0 0) float_zero]
      /\ row_datetime row = mk_datetime 2024 1 1 0 0 0
      /\ row_price row = float_zero)
  /\ (truthy (PInt 0) = false -> float_is_zero float_zero = true).
Proof.
  refine (falsy_price_is_kept
            [("data",
              PList [PDict [("priceDetails",
                             PList [detail "2024-01-01T00:00:00-0800"
                                      (PInt 0)])]])]
            [("priceDetails",
              PList [detail "2024-01-01T00:00:00-0800" (PInt 0)])]
            [("startIntervalTimeStamp", PStr "2024-01-01T00:00:00-0800");
             ("intervalPrice", PInt 0)]
            _ _ "2024-01-01T00:00:00-0800" (PInt 0)
            (mk_datetime 2024 1 1 0 0 0) float_zero [] _
            _ _ _ _ _ _ _ _ _ _); try reflexivity.
  - now left.
  - now left.
  - discriminate.
Defined.

(* ================================================================== *)
(** * Worked examples *)

(** The two-record response of the specification. *)
Example round_trip :
  process_pricing_data
    (response [detail "2024-01-01T00:00:00-0800" (PStr "12.5");
               detail "2024-01-01T01:00:00-0800" (PFloat float_13)]) []
  = (inr [mk_row 0 (mk_datetime 2024 1 1 0 0 0) float_12_5;
          mk_row 1 (mk_datetime 2024 1 1 1 0 0) float_13], []).
Proof. vm_compute. reflexivity. Qed.

(** A detail without a price next to a valid one: one row, no warning. *)
Example one_missing_price :
  process_pricing_data
    (response [PDict [("startIntervalTimeStamp",
                       PStr "2024-01-01T00:00:00-0800")];
               detail "2024-01-01T01:00:00-0800" (PFloat float_13)]) []
  = (inr [mk_row 0 (mk_datetime 2024 1 1 1 0 0) float_13], []).
Proof. vm_compute. reflexivity. Qed.

(** Rows come back by time, each with the label of its position in the
    response; the unparseable detail is reported. *)
Example mixed_response :
  process_pricing_data
    (response [detail "2024-01-01T01:00:00.250-0800" (PStr "12.5");
               detail "not a time" (PInt 1);
               detail "2024-01-01T00:00:00" (PStr "0")]) []
  = (inr [mk_row 1 (mk_datetime 2024 1 1 0 0 0) float_zero;
          mk_row 0 (mk_datetime 2024 1 1 1 0 0) float_12_5],
     [WarnSkip
        (Raise ValueError
           "time data 'not a time' does not match format '%Y-%m-%dT%H:%M:%S'");
      WarnSkipValues (PStr "not a time") (PInt 1)]).
Proof. vm_compute. reflexivity. Qed.

(** The offset is removed only at the very end of the string, or before a
    newline that ends it. *)
Example sub_offset_examples :
  Re.sub_offset "2024-01-01T00:00:00-0800" = "2024-01-01T00:00:00"
  /\ Re.sub_offset "2024-01-01T00:00:00+08000" = "2024-01-01T00:00:00+08000"
  /\ Re.sub_offset "2024-01-01T00:00:00.123-0800" = "2024-01-01T00:00:00.123"
  /\ Re.sub_fraction "2024-01-01T00:00:00.123" = "2024-01-01T00:00:00".
Proof. repeat split; reflexivity. Qed.

(** [strptime] reads single digits and a lower-case [t], and refuses a
    date the calendar does not have. *)
Example strptime_examples :
  strptime "2024-1-1t0:0:7" = inr (mk_datetime 2024 1 1 0 0 7)
  /\ strptime "2024-02-30T00:00:00"
     = inl (Raise ValueError "day is out of range for month")
  /\ strptime "2024-01-01T00:00:00.5"
     = inl (Raise ValueError "unconverted data remains: .5").
Proof. repeat split; reflexivity. Qed.

(* ================================================================== *)
(** * Further properties of the two functions *)

(** ** The offset and the fraction of a timestamp *)

Lemma sign_not_digit (c : ascii) : is_sign c = true -> is_digit c = false.
Proof.
  intros H. destruct (is_digit c) eqn:E; [|reflexivity].
  rewrite (digit_not_sign c E) in H. discriminate H.
Qed.

Ltac split_andb H :=
  repeat match type of H with
         | (_ && _) = true =>
             let H' := fresh "D" in apply andb_true_iff in H as [H H']
         end.

Ltac kill_andb :=
  repeat match goal with
         | |- context [?b && false] => rewrite (andb_false_r b)
         | |- context [false && ?b] => rewrite (andb_false_l b)
         end.

Lemma at_dollar_before_offset (t off : string) :
  is_offset off = true -> Re.at_dollar (t ++ off) = false.
Proof.
  intros H. do 6 (destruct off as [|? off]; try discriminate H).
  destruct t as [|x [|y t]]; reflexivity.
Qed.

Lemma match_offset_before_offset (c : ascii) (t off : string) :
  is_offset off = true -> Re.match_offset (String c (t ++ off)) = None.
Proof.
  intros H. pose proof (at_dollar_before_offset) as A.
  destruct t as [|t0 [|t1 [|t2 [|t3 t]]]].
  1-4: do 6 (destruct off as [|? off]; try discriminate H);
       cbv beta iota delta [is_offset] in H; split_andb H;
       pose proof (sign_not_digit _ H) as Hs;
       unfold Re.match_offset; cbn [append]; rewrite Hs; kill_andb;
       reflexivity.
  unfold Re.match_offset. cbn [append]. rewrite (A t off H). kill_andb.
  reflexivity.
Qed.

(** The substitution removes an offset that ends the string, and only
    that. *)
Lemma sub_offset_strips (t off : string) :
  is_offset off = true -> Re.sub_offset (t ++ off) = t.
Proof.
  intros H. induction t as [|c t IH].
  - cbn [append].
    do 6 (destruct off as [|? off]; try discriminate H).
    unfold Re.sub_offset, Re.match_offset. cbv beta iota delta [is_offset] in H.
    now rewrite H.
  - cbn [append Re.sub_offset].
    rewrite (match_offset_before_offset c t off H). now rewrite IH.
Qed.

Lemma match_offset_no_dot (w rest : string) :
  Re.match_offset w = Some rest -> Repr.contains_char "." w = false.
Proof.
  unfold Re.match_offset.
  do 5 (destruct w as [|? w]; try discriminate).
  destruct (_ && _) eqn:E; [|discriminate]. intros _.
  split_andb E.
  cbn [Repr.contains_char].
  rewrite (digit_not_dot _ D0), (digit_not_dot _ D1), (digit_not_dot _ D2),
    (digit_not_dot _ D3).
  assert (Hs : is_char "." a = false).
  { unfold is_sign, is_char in *. destruct (Ascii.eqb_spec "." a) as [<-|];
      [discriminate E|reflexivity]. }
  rewrite Hs. cbn [orb].
  destruct w as [|c [|? ?]]; try discriminate D; [reflexivity|].
  cbn [Re.at_dollar] in D. apply Nat.eqb_eq in D.
  cbn [Repr.contains_char]. unfold is_char.
  destruct (Ascii.eqb_spec "." c) as [<-|]; [discriminate D|reflexivity].
Qed.

Lemma contains_dot_app (s t : string) :
  Repr.contains_char "." t = true -> Repr.contains_char "." (s ++ t) = true.
Proof.
  intros H. induction s as [|c s IH]; cbn; [exact H|].
  rewrite IH. apply orb_true_r.
Qed.

Lemma sub_offset_no_match (c : ascii) (s : string) :
  Repr.contains_char "." (String c s) = true ->
  Re.sub_offset (String c s) = String c (Re.sub_offset s).
Proof.
  intros H. cbn [Re.sub_offset].
  destruct (Re.match_offset (String c s)) as [rest|] eqn:E; [|reflexivity].
  apply match_offset_no_dot in E. congruence.
Qed.

Lemma sub_offset_all_digits (f : string) :
  all_digits f = true -> Re.sub_offset f = f.
Proof.
  induction f as [|c f IH]; [reflexivity|].
  cbn [all_digits]. intros H. apply andb_true_iff in H as [Hc Hf].
  cbn [Re.sub_offset]. unfold Re.match_offset.
  rewrite (digit_not_sign c Hc).
  destruct f as [|? [|? [|? [|? ?]]]]; cbn [andb]; now rewrite IH.
Qed.

Lemma is_fraction_dot (frac : string) :
  is_fraction frac = true -> Repr.contains_char "." frac = true.
Proof.
  destruct frac as [|c [|d ds]]; try discriminate.
  cbn [is_fraction Repr.contains_char]. intros H. split_andb H. now rewrite H.
Qed.

Lemma sub_offset_before_fraction (s frac : string) :
  is_fraction frac = true -> Re.sub_offset (s ++ frac) = s ++ frac.
Proof.
  intros H. induction s as [|c s IH].
  - cbn [append]. pose proof (is_fraction_dot frac H) as Hd.
    destruct frac as [|c [|d ds]]; try discriminate H.
    rewrite (sub_offset_no_match _ _ Hd).
    cbn [is_fraction] in H. split_andb H.
    rewrite (sub_offset_all_digits (String d ds)); [reflexivity|].
    cbn [all_digits]. now rewrite D0, D.
  - cbn [append]. rewrite sub_offset_no_match, IH; [reflexivity|].
    cbn [Repr.contains_char].
    rewrite (contains_dot_app s frac (is_fraction_dot frac H)).
    apply orb_true_r.
Qed.

Lemma drop_all_digits (ds : string) :
  all_digits ds = true -> Re.sub_fraction_from true ds = "".
Proof.
  induction ds as [|c ds IH]; [reflexivity|].
  cbn [all_digits Re.sub_fraction_from]. intros H.
  apply andb_true_iff in H as [Hc Hd]. rewrite Hc. cbn [andb]. now apply IH.
Qed.

Lemma sub_fraction_drops_fraction (s frac : string) :
  Repr.contains_char "." s = false -> is_fraction frac = true ->
  Re.sub_fraction (s ++ frac) = s.
Proof.
  unfold Re.sub_fraction. intros Hs H.
  induction s as [|c s IH].
  - cbn [append]. destruct frac as [|c [|d ds]]; try discriminate H.
    cbn [is_fraction] in H. split_andb H.
    cbn [Re.sub_fraction_from Re.starts_with_digit andb]. rewrite H, D0.
    cbn [andb]. now apply drop_all_digits.
  - cbn [Repr.contains_char] in Hs. apply orb_false_iff in Hs as [Hc Hs].
    cbn [append Re.sub_fraction_from andb]. rewrite Hc. cbn [andb].
    now rewrite IH.
Qed.

Lemma append_empty_r (s : string) : s ++ "" = s.
Proof. induction s as [|c s IH]; cbn; congruence. Qed.

(** ** What [strptime] consumes *)

Lemma no_dot_contains (s : string) :
  no_dot s = negb (Repr.contains_char "." s).
Proof.
  induction s as [|c s IH]; [reflexivity|].
  cbn [no_dot Repr.contains_char]. rewrite IH.
  now destruct (is_char "." c).
Qed.

Lemma no_dot_app (a b : string) : no_dot (a ++ b) = no_dot a && no_dot b.
Proof.
  induction a as [|c a IH]; [reflexivity|].
  cbn [append no_dot]. rewrite IH. now rewrite andb_assoc.
Qed.

Lemma rejects_dot (p : ascii -> bool) (a : ascii) :
  p "."%char = false -> p a = true -> negb (is_char "." a) = true.
Proof.
  intros Hp Ha. unfold is_char.
  destruct (Ascii.eqb_spec "." a) as [<-|]; [congruence|reflexivity].
Qed.

Lemma eats_nil {A : Type} (s : string) : eats (@nil (A * string)) s.
Proof. intros v r []. Qed.

Lemma eats_app {A : Type} (l1 l2 : list (A * string)) (s : string) :
  eats l1 s -> eats l2 s -> eats (l1 ++ l2)%list s.
Proof.
  intros H1 H2 v r H. apply in_app_or in H as [H|H]; eauto.
Qed.

Lemma eats_two (p q : ascii -> bool) (s : string) :
  p "."%char = false -> q "."%char = false -> eats (Strptime.two p q s) s.
Proof.
  intros Hp Hq v r. unfold Strptime.two.
  destruct s as [|a [|b s]]; try (intros []).
  destruct (p a && q b) eqn:E; [|intros []].
  apply andb_true_iff in E as [Ea Eb].
  intros [H|[]]. inversion H; subst.
  exists (String a (String b "")). split; [reflexivity|].
  cbn [no_dot]. now rewrite (rejects_dot p a Hp Ea), (rejects_dot q b Hq Eb).
Qed.

Lemma eats_one (p : ascii -> bool) (s : string) :
  p "."%char = false -> eats (Strptime.one p s) s.
Proof.
  intros Hp v r. unfold Strptime.one.
  destruct s as [|a s]; try (intros []).
  destruct (p a) eqn:E; [|intros []].
  intros [H|[]]. inversion H; subst.
  exists (String a ""). split; [reflexivity|].
  cbn [no_dot]. now rewrite (rejects_dot p a Hp E).
Qed.

Lemma lit_eats (x : ascii) (s r : string) :
  eqb_nocase x "."%char = false -> In r (lit x s) ->
  exists c, s = c ++ r /\ no_dot c = true.
Proof.
  intros Hx. unfold lit. destruct s as [|a s]; [intros []|].
  destruct (eqb_nocase x a) eqn:E; [|intros []].
  intros [<-|[]]. exists (String a ""). split; [reflexivity|].
  cbn [no_dot]. unfold is_char.
  destruct (Ascii.eqb_spec "." a) as [<-|]; [congruence|reflexivity].
Qed.

Lemma eats_re_Y (s : string) : eats (re_Y s) s.
Proof.
  intros v r. unfold re_Y.
  destruct s as [|a [|b [|c [|d s]]]]; try (intros []).
  destruct (_ && _) eqn:E; [|intros []]. split_andb E.
  intros [H|[]]. inversion H; subst.
  exists (String a (String b (String c (String d "")))). split; [reflexivity|].
  cbn [no_dot]. now rewrite (digit_not_dot _ E), (digit_not_dot _ D1),
    (digit_not_dot _ D0), (digit_not_dot _ D).
Qed.

Lemma eats_re_m (s : string) : eats (re_m s) s.
Proof.
  unfold re_m. repeat apply eats_app;
    first [apply eats_two | apply eats_one]; reflexivity.
Qed.

Lemma eats_re_d (s : string) : eats (re_d s) s.
Proof.
  unfold re_d. repeat apply eats_app;
    try (first [apply eats_two | apply eats_one]; reflexivity).
  destruct s as [|a s]; [apply eats_nil|].
  destruct (is_char " " a) eqn:E; [|apply eats_nil].
  intros v r H.
  destruct (eats_one _ s (eq_refl : in_range "1" "9" "." = false) v r H)
    as [c [-> Hc]].
  exists (String a c). split; [reflexivity|]. cbn [no_dot]. rewrite Hc.
  now rewrite (rejects_dot (is_char " ") a eq_refl E).
Qed.

Lemma eats_re_H (s : string) : eats (re_H s) s.
Proof.
  unfold re_H. repeat apply eats_app;
    first [apply eats_two | apply eats_one]; reflexivity.
Qed.

Lemma eats_re_M (s : string) : eats (re_M s) s.
Proof.
  unfold re_M. repeat apply eats_app;
    first [apply eats_two | apply eats_one]; reflexivity.
Qed.

Lemma eats_re_S (s : string) : eats (re_S s) s.
Proof.
  unfold re_S. repeat apply eats_app;
    first [apply eats_two | apply eats_one]; reflexivity.
Qed.

Ltac eat_field L H :=
  apply in_flat_map in H as [[? ?] [?F H]];
  apply L in F as [? [-> ?]].

Ltac eat_lit H :=
  apply in_flat_map in H as [? [?F H]];
  apply lit_eats in F as [? [-> ?]]; [|reflexivity].

Lemma format_matches_eats (s rest : string) (dt : datetime) :
  In (dt, rest) (format_matches s) ->
  exists c, s = c ++ rest /\ no_dot c = true.
Proof.
  unfold format_matches. intros H.
  eat_field eats_re_Y H. eat_lit H.
  eat_field eats_re_m H. eat_lit H.
  eat_field eats_re_d H. eat_lit H.
  eat_field eats_re_H H. eat_lit H.
  eat_field eats_re_M H. eat_lit H.
  apply in_map_iff in H as [[v r] [E H]]. inversion E; subst.
  apply eats_re_S in H as [c [-> Hc]].
  eexists. split.
  - rewrite <- !append_assoc. reflexivity.
  - rewrite !no_dot_app.
    repeat match goal with E : no_dot _ = true |- _ => rewrite E; clear E end.
    reflexivity.
Qed.

(** A string [strptime] accepts holds no dot. *)
Lemma strptime_no_dot (s : string) (dt : datetime) :
  strptime s = inr dt -> Repr.contains_char "." s = false.
Proof.
  unfold strptime.
  destruct (format_matches s) as [|[d rest] l] eqn:E; [discriminate|].
  destruct (negb (rest =? "")) eqn:R; [discriminate|]. intros _.
  apply negb_false_iff, String.eqb_eq in R. subst rest.
  assert (H : In (d, "") (format_matches s)) by (rewrite E; now left).
  apply format_matches_eats in H as [c [-> Hc]].
  rewrite no_dot_contains in Hc. apply negb_true_iff in Hc.
  revert Hc. clear. induction c as [|x c IH]; cbn; [reflexivity|].
  intros H. apply orb_false_iff in H as [-> H]. now rewrite IH.
Qed.

(** ** The pass over the response *)

Lemma rows_from_nth (i : nat) (rs : list record) (row : Row) :
  In row (rows_from i rs) ->
  i <= row_index row
  /\ nth_error rs (row_index row - i) = Some (row_record row).
Proof.
  revert i; induction rs as [|[dt p] rs IH]; intros i; [intros []|].
  cbn [rows_from]. intros [<-|H].
  - cbn. now rewrite Nat.sub_diag.
  - apply IH in H as [H1 H2]. split; [lia|].
    replace (row_index row - i) with (S (row_index row - S i)) by lia.
    exact H2.
Qed.

Lemma passed_over_details (x : pyval) :
  passed_over x = true -> item_details x = inr [].
Proof.
  destruct x as [| | | | | |d]; try reflexivity.
  cbn [passed_over item_details]. intros H. apply negb_true_iff in H.
  now rewrite H.
Qed.

Lemma for_each_prints {A : Type} (step : pyval -> A -> M A) :
  (forall x st, prints (step x st)) ->
  forall items st, prints (for_each step items st).
Proof.
  intros Hs. induction items as [|x l IH]; intros st out r out' H.
  - inversion H; subst. exists []. now rewrite app_nil_r.
  - cbn [for_each] in H. unfold bind in H.
    destruct (step x st out) as [[e|st1] o1] eqn:E.
    + inversion H; subst. exact (Hs x st out _ _ E).
    + destruct (Hs x st out _ _ E) as [p1 [-> Q1]].
      destruct (IH st1 _ _ _ H) as [p2 [-> Q2]].
      exists (p1 ++ p2)%list. split; [now rewrite app_assoc|].
      unfold quiet in *. rewrite forallb_app. now rewrite Q1, Q2.
Qed.

Lemma process_detail_prints (x : pyval) (st : locals) :
  prints (process_detail x st).
Proof.
  intros out r out' H. rewrite process_detail_verdict in H.
  destruct (verdict_of x); inversion H; subst;
    first [ exists []; now rewrite app_nil_r | eexists; split; reflexivity ].
Qed.

Lemma process_item_prints (x : pyval) (st : locals) :
  prints (process_item x st).
Proof.
  intros out r out' H. rewrite process_item_details in H.
  destruct (item_details x) as [e|ds].
  - inversion H; subst. exists []. now rewrite app_nil_r.
  - exact (for_each_prints process_detail process_detail_prints ds st _ _ _ H).
Qed.

Lemma str_chars_not_dict (s : string) :
  forallb (fun x => negb (is_dict x)) (str_chars s) = true.
Proof. induction s as [|c s IH]; [reflexivity|]. cbn. exact IH. Qed.

Lemma keys_not_dict (d : list (string * pyval)) :
  forallb (fun x => negb (is_dict x)) (map (fun kv => PStr (fst kv)) d) = true.
Proof. induction d as [|kv d IH]; [reflexivity|]. cbn. exact IH. Qed.





(* ================================================================== *)
(** * Further theorems *)

(** X1. When the service answers with a status outside 400-599 and a body
    that decodes as JSON, [fetch_energy_data] returns the decoded body and
    has sent one request, whose [startdate] and [enddate] parameters are
    the two arguments, unchanged. *)
Theorem fetch_returns_decoded_body (start_date end_date : string)
  (w : World) (r : Response) (v : pyval) :
  network w (sent w) (the_request start_date end_date) = inr r ->
  bad_status r = false ->
  json_result r = inr v ->
  fetch_energy_data start_date end_date w
  = (inr v, mk_world (network w)
              (sent w ++ [the_request start_date end_date])%list)
  /\ req_url (the_request start_date end_date)
     = "https://pge-pe-api.gridx.com/v1/getPricing"
  /\ dict_lookup (req_params (the_request start_date end_date)) "startdate"
     = Some (PStr start_date)
  /\ dict_lookup (req_params (the_request start_date end_date)) "enddate"
     = Some (PStr end_date).
Proof.
  intros Hn Hs Hj. split; [|repeat split; reflexivity].
  unfold fetch_energy_data, requests_get.
  change (mk_request base_url (params start_date end_date))
    with (the_request start_date end_date).
  rewrite Hn, (good_status_passes r Hs). unfold response_json. now rewrite Hj.
Qed.

Lemma fetch_returns_decoded_body_witness :
  fetch_energy_data "20240101" "20240102"
    (answering (ok_response (response [])))
  = (inr (response []),
     mk_world (network (answering (ok_response (response []))))
       (sent (answering (ok_response (response [])))
        ++ [the_request "20240101" "20240102"])%list)
  /\ req_url (the_request "20240101" "20240102")
     = "https://pge-pe-api.gridx.com/v1/getPricing"
  /\ dict_lookup (req_params (the_request "20240101" "20240102")) "startdate"
     = Some (PStr "20240101")
  /\ dict_lookup (req_params (the_request "20240101" "20240102")) "enddate"
     = Some (PStr "20240102").
Proof.
  apply (fetch_returns_decoded_body "20240101" "20240102"
           (answering (ok_response (response [])))
           (ok_response (response [])) (response []));
    reflexivity.
Defined.

(** X2. Every call of [fetch_energy_data] sends exactly one request,
    whether it returns or raises: there is no retry, and the request is
    the same for every outcome. *)
Theorem every_fetch_sends_one_request (start_date end_date : string)
  (w : World) :
  sent (snd (fetch_energy_data start_date end_date w))
  = (sent w ++ [the_request start_date end_date])%list
  /\ network (snd (fetch_energy_data start_date end_date w)) = network w.
Proof.
  unfold fetch_energy_data, requests_get.
  destruct (network w (sent w) _) as [f|r]; cbn.
  - now destruct (is_RequestException (exn_of_transport f)).
  - destruct (raise_for_status r) as [e|u].
    + now destruct (is_RequestException e).
    + destruct (response_json r) as [e|v]; [|split; reflexivity].
      now destruct (is_RequestException e).
Qed.

(** X3. A response with a status in 400-599 makes [fetch_energy_data]
    raise a plain [Exception] with the message ["Failed to fetch data: "]
    followed by the status, [Client Error] or [Server Error], the reason
    and the URL, whatever its body is: the body is not decoded, even when
    it is valid JSON. *)
Theorem error_status_hides_body (start_date end_date : string) (w : World)
  (r : Response) :
  network w (sent w) (the_request start_date end_date) = inr r ->
  bad_status r = true ->
  fst (fetch_energy_data start_date end_date w)
  = inl (Raise Exception
           ("Failed to fetch data: "
            ++ str_int (status_code r) ++ " "
            ++ (if (status_code r <? 500)%Z then "Client Error"
                else "Server Error")
            ++ ": " ++ reason r ++ " for url: " ++ url r)).
Proof.
  intros Hn Hs. unfold fetch_energy_data, requests_get.
  change (mk_request base_url (params start_date end_date))
    with (the_request start_date end_date).
  rewrite Hn. unfold bad_status in Hs. apply andb_true_iff in Hs as [H1 H2].
  unfold raise_for_status. rewrite H1. cbn [andb].
  destruct (status_code r <? 500)%Z eqn:E; [reflexivity|].
  rewrite H2. apply Z.ltb_ge in E.
  replace (500 <=? status_code r)%Z with true
    by (symmetry; now apply Z.leb_le).
  reflexivity.
Qed.

Lemma error_status_hides_body_witness :
  fst (fetch_energy_data "20240101" "20240102"
         (answering (not_found (response []))))
  = inl (Raise Exception
           ("Failed to fetch data: "
            ++ str_int (status_code (not_found (response []))) ++ " "
            ++ (if (status_code (not_found (response [])) <? 500)%Z
                then "Client Error" else "Server Error")
            ++ ": " ++ reason (not_found (response []))
            ++ " for url: " ++ url (not_found (response [])))).
Proof.
  apply (error_status_hides_body "20240101" "20240102"
           (answering (not_found (response []))) (not_found (response [])));
    reflexivity.
Defined.

(** X4. [process_pricing_data] returns a table exactly when its argument
    is a mapping whose [data] value is true and iterable, the pass over it
    completes, and at least one detail is valid. *)
Theorem table_returned_exactly_when (data : pyval) (out : list diag) :
  (exists df out', process_pricing_data data out = (inr df, out'))
  <-> (exists d items,
         data = PDict d
         /\ truthy (dict_get d "data" (PList [])) = true
         /\ py_iter (dict_get d "data" (PList [])) = inr items
         /\ completes items = true
         /\ records_of (all_details items) <> []).
Proof.
  split.
  - intros (df & out' & H).
    apply process_returns_inv in H as (d & items & H1 & H2 & H3 & H4 & H5 & _).
    now exists d, items.
  - intros (d & items & -> & H2 & H3 & H4 & H5).
    eexists. eexists. apply (process_returns d items out H2 H3 H4 H5).
Qed.

(** X5. The rows of a returned table are the valid records, each exactly
    once, in ascending order of time; the label of a row is the position
    its record had before sorting (labels are distinct and are not
    renumbered), and what was printed is one pair of warnings per invalid
    detail. *)
Theorem returned_table_rows (data : pyval) (out out' : list diag)
  (df : list Row) :
  process_pricing_data data out = (inr df, out') ->
  exists d items,
    data = PDict d
    /\ py_iter (dict_get d "data" (PList [])) = inr items
    /\ Permutation (map row_record df) (records_of (all_details items))
    /\ StronglySorted row_le df
    /\ (forall row, In row df ->
          nth_error (records_of (all_details items)) (row_index row)
          = Some (row_record row))
    /\ NoDup (map row_index df)
    /\ out' = (out ++ warnings_of (all_details items))%list.
Proof.
  intros H.
  apply process_returns_inv in H as (d & items & -> & _ & Hi & _ & _ & -> & ->).
  exists d, items. repeat split; auto.
  - rewrite <- (rows_from_records 0 (records_of (all_details items))) at 2.
    apply Permutation_map, Permutation_sym, sort_values_perm.
  - apply sort_values_ascending.
  - intros row Hr.
    apply (Permutation_in _ (Permutation_sym (sort_values_perm _))) in Hr.
    apply rows_from_nth in Hr as [_ Hr]. now rewrite Nat.sub_0_r in Hr.
  - apply (Permutation_NoDup
             (Permutation_map row_index (sort_values_perm _))).
    unfold DataFrame. rewrite rows_from_index. apply seq_NoDup.
Qed.

Lemma returned_table_rows_witness :
  exists d items,
    response [detail "2024-01-01T01:00:00.250-0800" (PStr "12.5");
              detail "not a time" (PInt 1);
              detail "2024-01-01T00:00:00" (PStr "0")] = PDict d
    /\ py_iter (dict_get d "data" (PList [])) = inr items
    /\ Permutation
         (map row_record
            [mk_row 1 (mk_datetime 2024 1 1 0 0 0) float_zero;
             mk_row 0 (mk_datetime 2024 1 1 1 0 0) float_12_5])
         (records_of (all_details items))
    /\ StronglySorted row_le
         [mk_row 1 (mk_datetime 2024 1 1 0 0 0) float_zero;
          mk_row 0 (mk_datetime 2024 1 1 1 0 0) float_12_5]
    /\ (forall row,
          In row [mk_row 1 (mk_datetime 2024 1 1 0 0 0) float_zero;
                  mk_row 0 (mk_datetime 2024 1 1 1 0 0) float_12_5] ->
          nth_error (records_of (all_details items)) (row_index row)
          = Some (row_record row))
    /\ NoDup
         (map row_index
            [mk_row 1 (mk_datetime 2024 1 1 0 0 0) float_zero;
             mk_row 0 (mk_datetime 2024 1 1 1 0 0) float_12_5])
    /\ [WarnSkip
          (Raise ValueError
             "time data 'not a time' does not match format '%Y-%m-%dT%H:%M:%S'");
        WarnSkipValues (PStr "not a time") (PInt 1)]
       = ([] ++ warnings_of (all_details items))%list.
Proof.
  apply (returned_table_rows
           (response [detail "2024-01-01T01:00:00.250-0800" (PStr "12.5");
                      detail "not a time" (PInt 1);
                      detail "2024-01-01T00:00:00" (PStr "0")]) []).
  vm_compute. reflexivity.
Defined.

(** X6. Adding to a non-empty [data] list an entry the loop passes over
    (a value that is not a mapping, or a mapping whose [priceDetails] is
    absent or false) changes neither the table returned nor the exception
    raised. *)
Theorem passed_over_entries_change_nothing (d d' : list (string * pyval))
  (a b : list pyval) (x : pyval) (out : list diag) :
  passed_over x = true ->
  (a ++ b)%list <> [] ->
  dict_lookup d "data" = Some (PList (a ++ x :: b)) ->
  dict_lookup d' "data" = Some (PList (a ++ b)) ->
  fst (process_pricing_data (PDict d) out)
  = fst (process_pricing_data (PDict d') out).
Proof.
  intros Hx Hne Hd Hd'.
  assert (G : dict_get d "data" (PList []) = PList (a ++ x :: b))
    by (unfold dict_get; now rewrite Hd).
  assert (G' : dict_get d' "data" (PList []) = PList (a ++ b))
    by (unfold dict_get; now rewrite Hd').
  assert (T : truthy (PList (a ++ x :: b)) = true) by (now destruct a).
  assert (T' : truthy (PList (a ++ b)) = true)
    by (destruct (a ++ b)%list; [contradiction|reflexivity]).
  rewrite (process_scanned d (a ++ x :: b) out),
    (process_scanned d' (a ++ b) out);
    rewrite ?G, ?G'; auto.
  rewrite !for_each_app. unfold bind.
  destruct (for_each process_item a _ out) as [[e|st] o]; [reflexivity|].
  cbn [for_each]. unfold bind at 1.
  rewrite process_item_details, (passed_over_details x Hx). cbn [for_each].
  unfold ret.
  destruct (for_each process_item b st o) as [[e|st'] o']; [reflexivity|].
  now destruct (pricing_data st').
Qed.

Lemma passed_over_entries_change_nothing_witness :
  fst (process_pricing_data
         (PDict [("data",
                  PList ([PDict [("priceDetails",
                                  PList [detail "2024-01-01T00:00:00-0800"
                                           (PStr "12.5")])]]
                         ++ PStr "note" :: [])%list)]) [])
  = fst (process_pricing_data
           (PDict [("data",
                    PList ([PDict [("priceDetails",
                                    PList [detail "2024-01-01T00:00:00-0800"
                                             (PStr "12.5")])]]
                           ++ [])%list)]) []).
Proof.
  apply passed_over_entries_change_nothing
    with (a := [PDict [("priceDetails",
                        PList [detail "2024-01-01T00:00:00-0800"
                                 (PStr "12.5")])]])
         (b := []) (x := PStr "note").
  - reflexivity.
  - discriminate.
  - reflexivity.
  - reflexivity.
Defined.

(** X7. Every failure of [process_pricing_data] is the wrapped form of its
    cause, and the last two lines printed are the error line for that
    cause and the line showing the data received; nothing printed before
    them is one of these two lines. *)
Theorem failure_diagnostics_come_last (data : pyval) (out out' : list diag)
  (x : exn) :
  process_pricing_data data out = (inl x, out') ->
  exists cause printed,
    x = process_failed cause
    /\ out' = (out ++ printed ++ [ErrProcessing cause; DataReceived data])%list
    /\ quiet printed = true.
Proof.
  intros H.
  destruct (is_dict data) eqn:Hd.
  2:{ rewrite (process_not_dict data out Hd) in H. inversion H; subst.
      exists (Raise ValueError (expected_dict_msg data)), []. now repeat split. }
  destruct data as [| | | | | |d]; try discriminate Hd.
  destruct (truthy (dict_get d "data" (PList []))) eqn:Ht.
  2:{ rewrite (process_no_data d out Ht) in H. inversion H; subst.
      exists (Raise ValueError no_data_msg), [WarnNoData (dict_keys d)].
      now repeat split. }
  destruct (py_iter (dict_get d "data" (PList []))) as [e|items] eqn:Hi.
  { rewrite (process_not_iterable d e out Ht Hi) in H. inversion H; subst.
    exists e, []. now repeat split. }
  rewrite (process_scanned d items out Ht Hi) in H.
  destruct (for_each process_item items _ out) as [[e|st] o] eqn:E;
    destruct (for_each_prints process_item process_item_prints items _ _ _ _ E)
      as [p [-> Q]].
  - inversion H; subst. exists e, p. repeat split; auto.
    now rewrite <- app_assoc.
  - destruct (pricing_data st); [|discriminate H]. inversion H; subst.
    eexists. exists p. repeat split; auto. now rewrite <- app_assoc.
Qed.

Lemma failure_diagnostics_come_last_witness :
  exists cause printed,
    no_records_failure 1 = process_failed cause
    /\ [WarnSkip
          (Raise ValueError
             "time data 'not a time' does not match format '%Y-%m-%dT%H:%M:%S'");
        WarnSkipValues (PStr "not a time") (PInt 1);
        ErrProcessing (Raise ValueError (no_records_msg 1));
        DataReceived (response [detail "not a time" (PInt 1)])]
       = ([] ++ printed
          ++ [ErrProcessing cause;
              DataReceived (response [detail "not a time" (PInt 1)])])%list
    /\ quiet printed = true.
Proof.
  apply (failure_diagnostics_come_last
           (response [detail "not a time" (PInt 1)]) []).
  vm_compute. reflexivity.
Defined.

(** X8. The cleanup of line 82 removes a sign followed by four digits at
    the end of the timestamp, whatever stands before it, and nothing
    else. *)
Theorem trailing_offset_is_stripped (t off : string) :
  is_offset off = true ->
  clean_offset (PStr (t ++ off)) = inr t.
Proof.
  intros H. cbn [clean_offset]. now rewrite (sub_offset_strips t off H).
Qed.

Lemma trailing_offset_is_stripped_witness :
  clean_offset (PStr ("2024-01-01T00:00:00" ++ "-0800"))
  = inr "2024-01-01T00:00:00".
Proof.
  apply (trailing_offset_is_stripped "2024-01-01T00:00:00" "-0800").
  reflexivity.
Defined.

(** X9. A timestamp that [strptime] accepts still gives the same time
    when a fraction of a second, a UTC offset, or a fraction followed by
    an offset is written after it: the offset is dropped, not applied, and
    the fraction is discarded. *)
Theorem fraction_and_offset_keep_time (s frac off : string) (dt : datetime) :
  strptime s = inr dt ->
  frac = "" \/ is_fraction frac = true ->
  off = "" \/ is_offset off = true ->
  frac ++ off <> "" ->
  parse_timestamp (Re.sub_offset (s ++ frac ++ off)) = inr dt.
Proof.
  intros Hs Hf Ho Hne.
  pose proof (strptime_no_dot s dt Hs) as Hd.
  assert (Hclean : Re.sub_offset (s ++ frac ++ off) = s ++ frac).
  { destruct Ho as [-> | Ho].
    - destruct Hf as [-> | Hf]; [now contradiction Hne|].
      rewrite append_empty_r. now apply sub_offset_before_fraction.
    - rewrite <- append_assoc. now apply sub_offset_strips. }
  rewrite Hclean, parse_timestamp_attempts.
  destruct Hf as [-> | Hf].
  - rewrite append_empty_r, Hs. reflexivity.
  - destruct (strptime (s ++ frac)) as [e|dt'] eqn:E.
    + now rewrite (sub_fraction_drops_fraction s frac Hd Hf).
    + apply strptime_no_dot in E.
      rewrite (contains_dot_app s frac (is_fraction_dot frac Hf)) in E.
      discriminate E.
Qed.

Lemma fraction_and_offset_keep_time_witness :
  parse_timestamp
    (Re.sub_offset ("2024-01-01T00:00:00" ++ ".250" ++ "-0800"))
  = inr (mk_datetime 2024 1 1 0 0 0).
Proof.
  apply (fraction_and_offset_keep_time "2024-01-01T00:00:00" ".250" "-0800").
  - reflexivity.
  - right. reflexivity.
  - right. reflexivity.
  - discriminate.
Defined.



(** X11. When the [data] value is a non-empty mapping or a non-empty
    string instead of a list, the loop walks its keys or its characters,
    none of which is a mapping: the call fails with the no-valid-records
    failure, without a skip count and without a warning. *)
Theorem data_walked_by_keys_or_characters (d : list (string * pyval))
  (v : pyval) (out : list diag) :
  dict_lookup d "data" = Some v ->
  truthy v = true ->
  (exists inner, v = PDict inner) \/ (exists s, v = PStr s) ->
  process_pricing_data (PDict d) out
  = (inl (no_records_failure 0),
     (out ++ [ErrProcessing (Raise ValueError (no_records_msg 0));
              DataReceived (PDict d)])%list).
Proof.
  intros Hl Ht Hv.
  assert (G : dict_get d "data" (PList []) = v)
    by (unfold dict_get; now rewrite Hl).
  assert (exists items, py_iter v = inr items
            /\ forallb (fun x => negb (is_dict x)) items = true)
    as (items & Hi & Hn).
  { destruct Hv as [[inner ->] | [s ->]]; eexists; split; try reflexivity.
    - apply keys_not_dict.
    - apply str_chars_not_dict. }
  destruct (non_mapping_items items Hn) as [Hc Hd].
  rewrite (process_no_records d items out); rewrite ?G; auto.
  - now rewrite Hd.
  - now rewrite Hd.
Qed.

Lemma data_walked_by_keys_or_characters_witness :
  process_pricing_data
    (PDict [("data", PDict [("priceDetails", PList [])])]) []
  = (inl (no_records_failure 0),
     ([] ++ [ErrProcessing (Raise ValueError (no_records_msg 0));
             DataReceived
               (PDict [("data", PDict [("priceDetails", PList [])])])])%list).
Proof.
  apply (data_walked_by_keys_or_characters
           [("data", PDict [("priceDetails", PList [])])]
           (PDict [("priceDetails", PList [])])).
  - reflexivity.
  - reflexivity.
  - left. eexists. reflexivity.
Defined.

(** X12. A [priceDetails] value that is true and not iterable (a number,
    [true]) stops the whole call: the records collected from the entries
    before it are discarded, the entries after it are not read, and the
    failure wraps the TypeError of the [for] statement. *)
Theorem price_details_not_iterable_aborts (d it : list (string * pyval))
  (a b : list pyval) (v : pyval) (out : list diag) :
  dict_lookup d "data" = Some (PList (a ++ PDict it :: b)) ->
  completes a = true ->
  dict_lookup it "priceDetails" = Some v ->
  truthy v = true ->
  py_iter v = inl (not_iterable v) ->
  process_pricing_data (PDict d) out
  = (inl (process_failed (not_iterable v)),
     (out ++ warnings_of (all_details a)
      ++ [ErrProcessing (not_iterable v); DataReceived (PDict d)])%list).
Proof.
  intros Hd Hc Hp Ht He.
  assert (G : dict_get d "data" (PList []) = PList (a ++ PDict it :: b))
    by (unfold dict_get; now rewrite Hd).
  rewrite (process_scanned d (a ++ PDict it :: b) out);
    rewrite ?G; auto; [|now destruct a].
  rewrite for_each_app. unfold bind at 1.
  rewrite (for_each_items_ok a Hc). cbn [for_each]. unfold bind at 1.
  rewrite process_item_details. unfold item_details, dict_get.
  rewrite Hp, Ht, He. now rewrite <- app_assoc.
Qed.

Lemma price_details_not_iterable_aborts_witness :
  process_pricing_data
    (PDict [("data",
             PList ([PDict [("priceDetails",
                             PList [detail "2024-01-01T00:00:00-0800"
                                      (PStr "12.5")])]]
                    ++ PDict [("priceDetails", PInt 7)] :: [])%list)]) []
  = (inl (process_failed (not_iterable (PInt 7))),
     ([] ++ warnings_of
              (all_details
                 [PDict [("priceDetails",
                          PList [detail "2024-01-01T00:00:00-0800"
                                   (PStr "12.5")])]])
      ++ [ErrProcessing (not_iterable (PInt 7));
          DataReceived
            (PDict [("data",
                     PList ([PDict [("priceDetails",
                                     PList [detail "2024-01-01T00:00:00-0800"
                                              (PStr "12.5")])]]
                            ++ PDict [("priceDetails", PInt 7)] :: [])%list)])
         ])%list).
Proof.
  apply (price_details_not_iterable_aborts
           [("data",
             PList ([PDict [("priceDetails",
                             PList [detail "2024-01-01T00:00:00-0800"
                                      (PStr "12.5")])]]
                    ++ PDict [("priceDetails", PInt 7)] :: [])%list)]
           [("priceDetails", PInt 7)]
           [PDict [("priceDetails",
                    PList [detail "2024-01-01T00:00:00-0800" (PStr "12.5")])]]
           [] (PInt 7) []).
  - reflexivity.
  - reflexivity.
  - reflexivity.
  - reflexivity.
  - reflexivity.
Defined.





(** X15. Of the response mapping only the [data] entry is read: two
    mappings with the same [data] entry give the same table or the same
    exception, whatever other keys they hold. *)
Theorem other_response_fields_ignored (d d' : list (string * pyval))
  (out : list diag) :
  dict_lookup d "data" = dict_lookup d' "data" ->
  fst (process_pricing_data (PDict d) out)
  = fst (process_pricing_data (PDict d') out).
Proof.
  intros H.
  assert (G : dict_get d "data" (PList []) = dict_get d' "data" (PList []))
    by (unfold dict_get; now rewrite H).
  destruct (truthy (dict_get d "data" (PList []))) eqn:Ht.
  2:{ rewrite (process_no_data d out Ht), (process_no_data d' out);
        [reflexivity|now rewrite <- G]. }
  destruct (py_iter (dict_get d "data" (PList []))) as [e|items] eqn:Hi.
  { rewrite (process_not_iterable d e out Ht Hi),
      (process_not_iterable d' e out); rewrite <- ?G; auto. }
  rewrite (process_scanned d items out Ht Hi),
    (process_scanned d' items out); rewrite <- ?G; auto.
  destruct (for_each process_item items _ out) as [[e|st] o]; [reflexivity|].
  now destruct (pricing_data st).
Qed.

Lemma other_response_fields_ignored_witness :
  fst (process_pricing_data
         (PDict [("meta", PStr "day-ahead");
                 ("data", PList [PDict [("priceDetails",
                                         PList [detail "2024-01-01T00:00:00"
                                                  (PInt 3)])]])]) [])
  = fst (process_pricing_data
           (PDict [("data", PList [PDict [("priceDetails",
                                           PList [detail "2024-01-01T00:00:00"
                                                    (PInt 3)])]])]) []).
Proof.
  apply other_response_fields_ignored. reflexivity.
Defined.

(** X16. The details of all [data] entries are pooled: two responses
    whose passes complete and whose details, read entry after entry, are
    the same list give the same table or the same exception, however the
    details are divided among the entries. *)
Theorem grouping_of_details_irrelevant (d d' : list (string * pyval))
  (items items' : list pyval) (out : list diag) :
  dict_lookup d "data" = Some (PList items) ->
  dict_lookup d' "data" = Some (PList items') ->
  items <> [] -> items' <> [] ->
  completes items = true -> completes items' = true ->
  all_details items = all_details items' ->
  fst (process_pricing_data (PDict d) out)
  = fst (process_pricing_data (PDict d') out).
Proof.
  intros Hd Hd' Hn Hn' Hc Hc' Ha.
  assert (G : dict_get d "data" (PList []) = PList items)
    by (unfold dict_get; now rewrite Hd).
  assert (G' : dict_get d' "data" (PList []) = PList items')
    by (unfold dict_get; now rewrite Hd').
  assert (T : truthy (PList items) = true) by (now destruct items).
  assert (T' : truthy (PList items') = true) by (now destruct items').
  destruct (records_of (all_details items)) as [|r rs] eqn:R.
  - rewrite (process_no_records d items out),
      (process_no_records d' items' out);
      rewrite ?G, ?G', <- ?Ha; auto.
  - rewrite (process_returns d items out),
      (process_returns d' items' out);
      rewrite ?G, ?G', <- ?Ha, ?R; auto; discriminate.
Qed.

Lemma grouping_of_details_irrelevant_witness :
  fst (process_pricing_data
         (PDict [("data",
                  PList [PDict [("priceDetails",
                                 PList [detail "2024-01-01T00:00:00" (PInt 3);
                                        detail "2024-01-01T01:00:00" (PInt 4)])
                         ]])]) [])
  = fst (process_pricing_data
           (PDict [("data",
                    PList [PDict [("priceDetails",
                                   PList [detail "2024-01-01T00:00:00"
                                            (PInt 3)])];
                           PDict [("priceDetails",
                                   PList [detail "2024-01-01T01:00:00"
                                            (PInt 4)])]])]) []).
Proof.
  apply grouping_of_details_irrelevant
    with (items := [PDict [("priceDetails",
                            PList [detail "2024-01-01T00:00:00" (PInt 3);
                                   detail "2024-01-01T01:00:00" (PInt 4)])]])
         (items' := [PDict [("priceDetails",
                             PList [detail "2024-01-01T00:00:00" (PInt 3)])];
                     PDict [("priceDetails",
                             PList [detail "2024-01-01T01:00:00" (PInt 4)])]]).
  - reflexivity.
  - reflexivity.
  - discriminate.
  - discriminate.
  - reflexivity.
  - reflexivity.
  - reflexivity.
Defined.

(** X17. An exception [json.loads] raises that is no decode error
    ([ValueError] for an integer of more than 4300 digits,
    [RecursionError] for a nesting too deep) is not caught at line 33:
    it reaches the caller as it was raised, without the prefix
    ["Failed to fetch data: "], after the one request. *)
Theorem decoding_exception_escapes_unwrapped (start_date end_date : string)
  (w : World) (r : Response) (e : exn) :
  network w (sent w) (the_request start_date end_date) = inr r ->
  bad_status r = false ->
  json_result r = inl e ->
  exn_cls e = ValueError \/ exn_cls e = RecursionError ->
  fetch_energy_data start_date end_date w
  = (inl e, mk_world (network w)
              (sent w ++ [the_request start_date end_date])%list).
Proof.
  intros Hn Hs Hj Hc. unfold fetch_energy_data, requests_get.
  change (mk_request base_url (params start_date end_date))
    with (the_request start_date end_date).
  rewrite Hn, (good_status_passes r Hs). unfold response_json.
  rewrite Hj. destruct e as [c m]. cbn [exn_cls] in Hc.
  destruct Hc; subst c; reflexivity.
Qed.

Lemma decoding_exception_escapes_unwrapped_witness :
  fetch_energy_data "20240101" "20240102"
    (answering (mk_response 200 "OK"
                  "https://pge-pe-api.gridx.com/v1/getPricing"
                  (inl too_many_digits)))
  = (inl too_many_digits,
     mk_world
       (network (answering (mk_response 200 "OK"
                              "https://pge-pe-api.gridx.com/v1/getPricing"
                              (inl too_many_digits))))
       (sent (answering (mk_response 200 "OK"
                           "https://pge-pe-api.gridx.com/v1/getPricing"
                           (inl too_many_digits)))
        ++ [the_request "20240101" "20240102"])%list).
Proof.
  apply (decoding_exception_escapes_unwrapped "20240101" "20240102"
           (answering (mk_response 200 "OK"
                         "https://pge-pe-api.gridx.com/v1/getPricing"
                         (inl too_many_digits)))
           (mk_response 200 "OK"
              "https://pge-pe-api.gridx.com/v1/getPricing"
              (inl too_many_digits))
           too_many_digits).
  - reflexivity.
  - reflexivity.
  - reflexivity.
  - left. reflexivity.
Defined.
